(* ===== verification/_CoqProject ===== *)
-Q . S2P
Prelude.v
Core.v
Registry.v
Trace.v
AdState.v
AddJaxvals.v
ZerosLike.v
StopGradient.v
Pytree.v
SymbolicZero.v
Session.v
Ordering.v
