(* ===== verification/Prelude.v ===== *)
(** * A verification development of [jax/ad_util.py]

    This library models [src/jax/ad_util.py] and proves its behaviour. The
    module is the symbolic-zero and additive machinery that JAX's reverse-mode
    differentiation relies on.

    ** The program and how its parts interact

    - Three type-keyed registries are plain module-level dicts.
      [jaxval_adders] (lines 27-28) maps a value type to its adder.
      [jaxval_zeros_likers] (line 46) and [aval_zeros_likers] (lines 51-52)
      map a type to its zero constructor. Other modules extend them with
      [d[T] = f].
    - [add_jaxvals] (lines 30-34) returns [unit] when both avals are
      [abstract_unit]. Otherwise it binds the [add_any] primitive. The
      primitive's impl [add_impl] (38-40) dispatches on [type(xs)] in
      [jaxval_adders]. Its abstract rule [add_abstract] (42-44) is
      [core.lattice_join].
    - [zeros_like_aval] (48-49) is an eager call on [aval_zeros_likers].
      [zeros_like_jaxval] (54-55) binds the [zeros_like] primitive, whose
      impl (59-61) uses [jaxval_zeros_likers] and whose abstract rule (63) is
      the identity.
    - [Zero] and [zero] (65-69) are the symbolic zero. Line 71 registers
      [Zero] as a pytree node with no children.
    - [stop_gradient_p] (74-93) has an identity impl that checks
      [valid_jaxtype], and a custom bind. The custom bind returns [x] when no
      trace is active, and otherwise hands [x] to the top trace.
    - The module calls two collaborators outside [src/]: [jax.core] (avals,
      the lattice, [Primitive.bind], the trace stack) and [jax.tree_util]
      (the pytree registry). Both are modelled from the spec and marked
      [spec_modelled] in the manifest.

    ** Files, in dependency order

    - [Prelude] (this file): the result type and the state-and-exception
      monad [stM], where the state survives a raise. Its notations [let?] and
      [let*] live in [py_scope]. Also the shared monad lemmas, the [py] hint
      databases (purity of the eager paths by [auto with py]), and the
      tactic [py_run].
    - [Core]: Python objects [pyobj], type objects [pytype], exceptions
      [exn], avals [aval], plus [get_aval], [valid_jaxtype], [repr], [str]
      and [lattice_join], with decidable equality and a [Countable] instance
      for [pytype] so that dicts can be keyed by it.
    - [Registry]: a dict is a stdpp [gmap pytype F]. [register] is
      [d[k] = f], and [lookup_fn] is [d[k]], raising [KeyError].
    - [Trace]: [Primitive], [find_top_trace], [Primitive.bind]
      ([default_bind]) and [def_custom_bind]. The trace operations are the
      [TraceSem] interface. Its instance [staging_sem] records one equation
      per staged primitive in a [TraceState].
    - [AdState]: the module's global state and [ad_init], its value after
      import, and the alias [Array = Any] (line 23).
    - [AddJaxvals], [ZerosLike], [StopGradient]: one file per operation.
      Most theorems are proved against every [TraceSem]; the ones about the
      equation log use [staging_sem].
    - [Pytree]: [tree_flatten] and [tree_unflatten] over a node registry,
      with the protocol's termination, roundtrip and leaves lemmas.
    - [SymbolicZero]: [zero], its pytree node, and the registry after
      import.
    - [Session]: the module as a machine over the operations [op], for any
      [TraceSem]. [run_op] runs one registration or call, [step] relates
      the states before and after it, and [run_ops] runs a list of them.
      The class [TraceLocal] is the law the registry theorem assumes of a
      trace semantics: it writes only the trace state. [staging_sem] meets
      it. It translates no source lines.
    - [Ordering]: how registrations and calls interleave. It proves that
      the staging trace only touches the trace state (Section [Frame]), and
      that a registration commutes with a call on another entry.

    ** What the theorems show

    - Functional behaviour of each operation on every branch, errors
      included: the unit short-circuit, dispatch on [type(x)], [KeyError]
      for an unregistered type, and the identity impl with its [TypeError].
      Each operation leaves the state unchanged outside a trace, and inside
      a staged trace it records exactly one equation whose output aval is
      given by the abstract rule, or raises the rule's error
      ([AddJaxvals], [ZerosLike], [StopGradient]).
    - Refinement: [stop_gradient]'s custom bind agrees with the default
      [Primitive.bind] on every traced or valid input. It differs only by
      skipping the validity check on untraced invalid values.
    - Divergences from the spec: [add_jaxvals] has no [Zero] case,
      [zeros_like_jaxval(unit)] raises right after import, and the
      import-time [Unit] adder returns [unit] for [(unit, x)] with any [x]
      while the abstract rule rejects that pair.
    - Roundtrip: the [Zero] node satisfies the pytree laws, every object
      flattens and unflattens back to itself under the registry after
      import, and [zero] flattens to no leaves ([SymbolicZero]).
    - Invariants over the machine ([Session]): under any [TraceLocal]
      semantics no call of the module changes a registry, and under
      [staging_sem] every step only appends to the equation log.
    - Ordering: a registration commutes with every call that does not
      dispatch on the entry it writes, traced or not ([Ordering]).
    - Termination: adding the [Zero] node to a registry whose nodes shrink
      keeps [tree_flatten] total ([SymbolicZero]).

    ** Bounds and fuel

    There are no machine integers: payloads are [Z] and ids are [nat]. The
    only fuel is [tree_flatten]'s. A registered [flatten] is an arbitrary
    function, so [tree_flatten_fuel] recurses on fuel, and [tree_flatten]
    gives it [S (pyobj_size x)]. [Pytree.flatten_total] proves that this is
    enough for every registry whose nodes have strictly smaller children,
    which holds for the built-in nodes and for [Zero].

    ** Not modelled

    - Any check that [Primitive.bind] itself makes on its arguments. The
      spec describes [bind] only as the dispatch to the impl or the top
      trace, and that dispatch is what [default_bind] models.
    - Keyword parameters, which [ad_util] always passes empty.
    - Trace sublevels, and the batching and eval traces. Only a staging
      trace is given as an instance.
    - Weak types and [ConcreteArray].
    - Lists, dicts and namedtuples as pytree nodes.
    - [map = safe_map] (line 25). It rebinds the module's [map], which the
      module never calls, and [jax.util] is neither under [src/] nor
      described by the spec. The imports (lines 16-21) only bring in names
      that [Core], [Trace] and [Pytree] model.
    - The JVP trace. [jax/interpreters/ad.py] is not under [src/], and
      the spec names it only as the client of these operations, so a model
      of its rules would not be a translation.
    - Registered functions are pure: the state cannot hold functions over
      itself.
    - Liveness as a separate kind of property. Spec section 5 says every
      operation is synchronous and terminates. The model's operations are
      structurally recursive total functions, so each call returns a value
      or an exception. The one place where recursion is not structural,
      [tree_flatten], is proved total ([Pytree.flatten_total],
      [SymbolicZero.register_Zero_flatten_total]).

    ** What remains

    Every line of [src/jax/ad_util.py] that has behaviour is translated.
    The lines the map does not cover are the licence header, the imports,
    blank lines, comments and [map = safe_map]. What could still be added
    lies outside [src/]: a second [TraceSem] instance meeting [TraceLocal],
    such as an evaluation trace, once the spec describes one. *)

From stdpp Require Import base list.

(** ** Results: a Python call returns a value or raises an exception *)

Inductive result (E A : Type) : Type :=
| Ok (a : A)
| Err (e : E).
Arguments Ok {E A} a.
Arguments Err {E A} e.

Definition res_bind {E A B} (r : result E A) (k : A -> result E B) : result E B :=
  match r with Ok a => k a | Err e => Err e end.

Definition res_map {E A B} (f : A -> B) (r : result E A) : result E B :=
  match r with Ok a => Ok (f a) | Err e => Err e end.

Definition is_ok {E A} (r : result E A) : bool :=
  match r with Ok _ => true | Err _ => false end.

Fixpoint res_mapM {E A B} (f : A -> result E B) (l : list A) : result E (list B) :=
  match l with
  | [] => Ok []
  | x :: l' =>
      res_bind (f x) (fun y => res_map (fun ys => y :: ys) (res_mapM f l'))
  end.

(** ** State and exceptions: [stM S E A] threads a state [S].
    The state survives a raise, as a Python global does. *)

Definition stM (S E A : Type) : Type := S -> result E A * S.

Definition st_ret {S E A} (a : A) : stM S E A := fun s => (Ok a, s).
Definition st_raise {S E A} (e : E) : stM S E A := fun s => (Err e, s).
Definition st_lift {S E A} (r : result E A) : stM S E A := fun s => (r, s).
Definition st_get {S E} : stM S E S := fun s => (Ok s, s).
Definition st_put {S E} (s : S) : stM S E unit := fun _ => (Ok tt, s).
Definition st_bind {S E A B} (m : stM S E A) (k : A -> stM S E B) : stM S E B :=
  fun s => match m s with
           | (Ok a, s') => k a s'
           | (Err e, s') => (Err e, s')
           end.

Declare Scope py_scope.
Delimit Scope py_scope with py.
Notation "'let?' x ':=' r 'in' k" := (res_bind r (fun x => k))
  (at level 10, x name, r at level 100, k at level 200) : py_scope.
Notation "'let*' x ':=' m 'in' k" := (st_bind m (fun x => k))
  (at level 10, x name, m at level 100, k at level 200) : py_scope.
Open Scope py_scope.

(** ** Shared lemmas on the two monads *)

Create HintDb py discriminated.
Create Rewrite HintDb py.

Lemma res_bind_ok {E A B} (a : A) (k : A -> result E B) :
  res_bind (Ok a) k = k a.
Proof. reflexivity. Qed.

Lemma res_bind_err {E A B} (e : E) (k : A -> result E B) :
  res_bind (Err e) k = Err e.
Proof. reflexivity. Qed.

Lemma st_bind_ret_l {S E A B} (a : A) (k : A -> stM S E B) s :
  st_bind (st_ret a) k s = k a s.
Proof. reflexivity. Qed.

Lemma st_bind_lift_ok {S E A B} (a : A) (k : A -> stM S E B) s :
  st_bind (st_lift (Ok a)) k s = k a s.
Proof. reflexivity. Qed.

Lemma st_bind_lift_err {S E A B} (e : E) (k : A -> stM S E B) s :
  st_bind (st_lift (Err e)) k s = (Err e, s).
Proof. reflexivity. Qed.

Lemma st_bind_ok {S E A B} (m : stM S E A) (k : A -> stM S E B) s a s' :
  m s = (Ok a, s') -> st_bind m k s = k a s'.
Proof. intros H. unfold st_bind. by rewrite H. Qed.

(** A computation [m] is [pure_in] when it leaves the state unchanged on
    every branch; the eager paths of the module are of this kind. *)
Definition pure_in {S E A} (m : stM S E A) : Prop := forall s, snd (m s) = s.

Lemma pure_in_lift {S E A} (r : result E A) : pure_in (S:=S) (st_lift r).
Proof. intros s. reflexivity. Qed.

Lemma pure_in_ret {S E A} (a : A) : pure_in (S:=S) (E:=E) (st_ret a).
Proof. intros s. reflexivity. Qed.

Lemma pure_in_get {S E} : pure_in (S:=S) (E:=E) st_get.
Proof. intros s. reflexivity. Qed.

Lemma pure_in_bind {S E A B} (m : stM S E A) (k : A -> stM S E B) :
  pure_in m -> (forall a, pure_in (k a)) -> pure_in (st_bind m k).
Proof.
  intros Hm Hk s. unfold st_bind. specialize (Hm s).
  destruct (m s) as [[a|e] s'] eqn:Hms; cbn in *; subst; [apply Hk | reflexivity].
Qed.

#[export] Hint Rewrite @res_bind_ok @res_bind_err @st_bind_ret_l
  @st_bind_lift_ok @st_bind_lift_err : py.
#[export] Hint Resolve pure_in_lift pure_in_ret pure_in_get pure_in_bind : py.

(** [py_run] unfolds the monad plumbing and evaluates what is concrete. *)
Ltac py_run :=
  unfold st_bind, st_ret, st_lift, st_raise, st_get, st_put, res_bind, res_map in *;
  cbn in *.
