(* ===== verification/Core.v ===== *)
(** * Core: the collaborators of [ad_util.py] in [jax.core]

    [jax/core.py] is not under [src/], so the definitions below come from the
    spec's interface (section 6). Each one is marked [spec_modelled] in the map.
    The exceptions are [PyZero] and [Zero_repr], which come from [ad_util.py]
    lines 65-69.

    - [pyobj] holds the Python objects that flow through the module. Following
      design note 9 of the spec, the symbolic zero is its own constructor,
      [PyZero]. A user class such as the spec's [IntBox] is [PyBox "IntBox" v].
    - [pytype] is [type(x)]. It is the key of every registry, so it has
      [EqDecision] and [Countable] instances.
    - [aval] holds the abstract values, [get_aval] and [concrete_aval] return
      them, and [valid_jaxtype] tests for one.
    - [lattice_join] is [core.lattice_join] on these avals: equal avals join
      to themselves, shaped and unshaped arrays of one dtype join to the
      unshaped array, and anything else raises [join_error]. *)

From stdpp Require Import base list strings pretty countable.
From S2P Require Import Prelude.

(** ** Data *)

Inductive dtype := float32 | int32 | bool_.

(** Abstract values: [core.AbstractUnit], [core.UnshapedArray],
    [core.ShapedArray], and the aval class of a user-registered type. *)
Inductive aval :=
| AbstractUnit
| UnshapedArray (dt : dtype)
| ShapedArray (dt : dtype) (shape : list nat)
| AbstractBox (cls : string).

(** Python objects. [PyTracer level id av] is a tracer of the trace at
    [level], with abstract value [av]. *)
Inductive pyobj :=
| PyUnit
| PyZero
| PyNone
| PyStr (s : string)
| PyTuple (xs : list pyobj)
| PyArray (dt : dtype) (shape : list nat) (data : list Z)
| PyBox (cls : string) (v : Z)
| PyTracer (level : nat) (id : nat) (av : aval).

(** Python type objects: the types of values and the types of avals. *)
Inductive pytype :=
| TyUnit | TyZero | TyNoneType | TyStr | TyTuple | TyDeviceArray
| TyBox (cls : string) | TyTracer
| TyAbstractUnit | TyUnshapedArray | TyShapedArray | TyAbstractBox (cls : string).

(** The exceptions the module raises or lets through. *)
Inductive exn :=
| KeyError (key : pytype)
| TypeError (msg : string)
| AssertionError (msg : string).

Abbreviation PyM S := (stM S exn).

(** ** Decidable equality and countability *)

#[export] Instance dtype_eq_dec : EqDecision dtype.
Proof. solve_decision. Defined.
#[export] Instance aval_eq_dec : EqDecision aval.
Proof. solve_decision. Defined.
#[export] Instance pytype_eq_dec : EqDecision pytype.
Proof. solve_decision. Defined.
#[export] Instance exn_eq_dec : EqDecision exn.
Proof. solve_decision. Defined.

Fixpoint pyobj_eq_dec (x y : pyobj) {struct x} : Decision (x = y).
Proof.
  refine (match x, y with
          | PyUnit, PyUnit | PyZero, PyZero | PyNone, PyNone => left eq_refl
          | PyStr s, PyStr s' => cast_if (decide (s = s'))
          | PyTuple xs, PyTuple ys =>
              cast_if (@list_eq_dec _ pyobj_eq_dec xs ys)
          | PyArray d sh da, PyArray d' sh' da' =>
              cast_if_and3 (decide (d = d')) (decide (sh = sh')) (decide (da = da'))
          | PyBox c v, PyBox c' v' => cast_if_and (decide (c = c')) (decide (v = v'))
          | PyTracer l i a, PyTracer l' i' a' =>
              cast_if_and3 (decide (l = l')) (decide (i = i')) (decide (a = a'))
          | _, _ => right _
          end); abstract (intuition congruence).
Defined.
#[export] Existing Instance pyobj_eq_dec.

Definition pytype_encode (t : pytype) : nat * string :=
  match t with
  | TyUnit => (0, "") | TyZero => (1, "") | TyNoneType => (2, "")
  | TyStr => (3, "") | TyTuple => (4, "") | TyDeviceArray => (5, "")
  | TyBox c => (6, c) | TyTracer => (7, "") | TyAbstractUnit => (8, "")
  | TyUnshapedArray => (9, "") | TyShapedArray => (10, "")
  | TyAbstractBox c => (11, c)
  end%string.

Definition pytype_decode (p : nat * string) : pytype :=
  match p with
  | (0, _) => TyUnit | (1, _) => TyZero | (2, _) => TyNoneType
  | (3, _) => TyStr | (4, _) => TyTuple | (5, _) => TyDeviceArray
  | (6, c) => TyBox c | (7, _) => TyTracer | (8, _) => TyAbstractUnit
  | (9, _) => TyUnshapedArray | (10, _) => TyShapedArray
  | (_, c) => TyAbstractBox c
  end.

(** Transparent, so that registry lookups compute by [reflexivity]. *)
#[export] Instance pytype_countable : Countable pytype.
Proof. refine (inj_countable' pytype_encode pytype_decode _). by intros []. Defined.

(** ** [type(x)] *)

Definition type_of (x : pyobj) : pytype :=
  match x with
  | PyUnit => TyUnit
  | PyZero => TyZero
  | PyNone => TyNoneType
  | PyStr _ => TyStr
  | PyTuple _ => TyTuple
  | PyArray _ _ _ => TyDeviceArray
  | PyBox c _ => TyBox c
  | PyTracer _ _ _ => TyTracer
  end.

Definition aval_type (a : aval) : pytype :=
  match a with
  | AbstractUnit => TyAbstractUnit
  | UnshapedArray _ => TyUnshapedArray
  | ShapedArray _ _ => TyShapedArray
  | AbstractBox c => TyAbstractBox c
  end.

Definition type_repr (t : pytype) : string :=
  match t with
  | TyUnit => "<class 'jax.core.Unit'>"
  | TyZero => "<class 'jax.ad_util.Zero'>"
  | TyNoneType => "<class 'NoneType'>"
  | TyStr => "<class 'str'>"
  | TyTuple => "<class 'tuple'>"
  | TyDeviceArray => "<class 'DeviceArray'>"
  | TyBox c => "<class '" ++ c ++ "'>"
  | TyTracer => "<class 'Tracer'>"
  | TyAbstractUnit => "<class 'jax.core.AbstractUnit'>"
  | TyUnshapedArray => "<class 'jax.core.UnshapedArray'>"
  | TyShapedArray => "<class 'jax.core.ShapedArray'>"
  | TyAbstractBox c => "<class 'Abstract" ++ c ++ "'>"
  end%string.

(** ** [repr] and [str]: [Zero.__repr__] is [ad_util.py] lines 66-67 *)

Definition Zero_repr : string := "Zero".

Fixpoint py_repr (x : pyobj) : string :=
  match x with
  | PyUnit => "*"
  | PyZero => Zero_repr
  | PyNone => "None"
  | PyStr s => "'" ++ s ++ "'"
  | PyTuple [y] => "(" ++ py_repr y ++ ",)"
  | PyTuple ys => "(" ++ String.concat ", " (map py_repr ys) ++ ")"
  | PyArray _ _ data => "DeviceArray([" ++ String.concat ", " (map pretty data) ++ "])"
  | PyBox c v => c ++ "(" ++ pretty v ++ ")"
  | PyTracer l i _ => "Traced<level " ++ pretty l ++ ", id " ++ pretty i ++ ">"
  end%string.

(** [str(x)], which an f-string uses: the text of a string, the [repr] of the
    rest. *)
Definition py_str (x : pyobj) : string :=
  match x with PyStr s => s | _ => py_repr x end.

(** ** Abstract values of concrete objects *)

Definition core_unit : pyobj := PyUnit.
Definition abstract_unit : aval := AbstractUnit.

(** [concrete_aval]: [pytype_aval_mappings[type(x)](x)], with a [TypeError]
    for a type that has no mapping. *)
Definition concrete_aval (x : pyobj) : result exn aval :=
  match x with
  | PyUnit => Ok AbstractUnit
  | PyArray dt sh _ => Ok (ShapedArray dt sh)
  | PyBox c _ => Ok (AbstractBox c)
  | _ => Err (TypeError (type_repr (type_of x) ++ " is not a valid Jax type")%string)
  end.

Definition get_aval (x : pyobj) : result exn aval :=
  match x with
  | PyTracer _ _ av => Ok av
  | _ => concrete_aval x
  end.

Definition valid_jaxtype (x : pyobj) : bool := is_ok (concrete_aval x).

(** ** The lattice of abstract values *)

Definition join_error : exn := TypeError "lattice_join: incompatible abstract values".

Definition lattice_join (x y : aval) : result exn aval :=
  match x, y with
  | AbstractUnit, AbstractUnit => Ok AbstractUnit
  | UnshapedArray d1, UnshapedArray d2 =>
      if decide (d1 = d2) then Ok x else Err join_error
  | ShapedArray d1 s1, ShapedArray d2 s2 =>
      if decide (d1 = d2) then
        if decide (s1 = s2) then Ok x else Ok (UnshapedArray d1)
      else Err join_error
  | ShapedArray d1 _, UnshapedArray d2
  | UnshapedArray d1, ShapedArray d2 _ =>
      if decide (d1 = d2) then Ok (UnshapedArray d1) else Err join_error
  | AbstractBox c1, AbstractBox c2 =>
      if decide (c1 = c2) then Ok x else Err join_error
  | _, _ => Err join_error
  end.
