(* ===== verification/Registry.v ===== *)
(** * Registry: the type-keyed dicts of [ad_util.py]

    [jaxval_adders], [jaxval_zeros_likers] and [aval_zeros_likers]
    (lines 27, 46, 51) are Python dicts from a type object to a function.
    The module uses a dict in two ways. It writes [d[T] = f] (lines 28 and 52,
    and every extension module), which is [register]. It reads
    [d[type(x)]] (lines 40, 49, 61), which is [lookup_fn]; a missing key
    raises [KeyError] with that key.

    A dict is a stdpp [gmap pytype F]. The file proves the laws of a write
    followed by a read that the operations and the session theorems use. *)

From stdpp Require Import base list gmap.
From S2P Require Import Prelude Core.

Section Registry.
Context {F : Type}.

(** [d[k] = f] *)
Definition register (k : pytype) (f : F) (d : gmap pytype F) : gmap pytype F :=
  <[k := f]> d.

(** [d[k]]: the entry, or [KeyError(k)]. *)
Definition lookup_fn (d : gmap pytype F) (k : pytype) : result exn F :=
  match d !! k with
  | Some f => Ok f
  | None => Err (KeyError k)
  end.

Lemma lookup_fn_register_eq k f d : lookup_fn (register k f d) k = Ok f.
Proof. unfold lookup_fn, register. by rewrite lookup_insert_eq. Qed.

Lemma lookup_fn_ok d k f : lookup_fn d k = Ok f <-> d !! k = Some f.
Proof.
  unfold lookup_fn. destruct (d !! k); split; intros H; congruence.
Qed.

Lemma register_keeps_keys k f d k' :
  is_Some (d !! k') -> is_Some (register k f d !! k').
Proof.
  intros [g Hg]. unfold register. destruct (decide (k = k')) as [<-|Hne].
  - rewrite lookup_insert_eq. eauto.
  - rewrite lookup_insert_ne by done. eauto.
Qed.

End Registry.

#[export] Hint Rewrite @lookup_fn_register_eq : py.
#[export] Hint Resolve register_keeps_keys : py.
