(* ===== verification/Trace.v ===== *)
(** * Trace: [jax.core]'s primitives and interpreter stack

    [ad_util.py] creates three [core.Primitive] objects and binds them.
    [jax/core.py] is not under [src/], so this file models from the spec
    (section 6) the parts it relies on; the map marks them [spec_modelled].

    - [Primitive]: a name, an [impl] and an [abstract_eval] rule.
      [def_impl] and [def_abstract_eval] fill these fields.
    - [BoundPrimitive] pairs a primitive with its [bind] method.
      [mk_primitive] installs [default_bind] ([Primitive.bind]);
      [def_custom_bind] replaces it, as [stop_gradient_p] does.
    - [find_top_trace xs] returns the trace of the highest-level tracer among
      [xs], or [None] when no argument is a tracer. Python's [max] keeps the
      first maximum, and so does the model.
    - [TraceSem] is the interface of the trace operations [bind] calls:
      [process_primitive], [full_raise] and [full_lower]. It has one law:
      raising a tracer into its own trace is the identity. The theorems about
      the primitives hold for every instance.
    - [staging_sem] is a concrete instance. It behaves like [JaxprTrace]:
      [process_primitive] appends an equation [eqn] to the trace state and
      returns a fresh tracer. Its state is reached through [HasTraceState],
      so the equation log is observable.

    Keyword parameters are always [{}] in [ad_util.py], so [bind] takes only
    positional arguments. *)

From stdpp Require Import base list strings.
From S2P Require Import Prelude Core.

Record trace := MkTrace { trace_level : nat }.

#[export] Instance trace_eq_dec : EqDecision trace.
Proof. solve_decision. Defined.

Definition trace_of (x : pyobj) : option trace :=
  match x with
  | PyTracer l _ _ => Some (MkTrace l)
  | _ => None
  end.

(** The running maximum of [max(..., key=attrgetter('level'))]: a later
    trace replaces the current one only when its level is strictly larger. *)
Definition max_trace (acc o : option trace) : option trace :=
  match acc, o with
  | None, o => o
  | acc, None => acc
  | Some t1, Some t2 => if trace_level t1 <? trace_level t2 then Some t2 else Some t1
  end.

Definition find_top_trace (xs : list pyobj) : option trace :=
  fold_left (fun acc x => max_trace acc (trace_of x)) xs None.

Record Primitive (S : Type) := MkPrimitive {
  prim_name : string;
  prim_impl : list pyobj -> PyM S pyobj;
  prim_abstract_eval : list aval -> result exn aval
}.
Arguments MkPrimitive {S} _ _ _.
Arguments prim_name {S} _.
Arguments prim_impl {S} _ _ _.
Arguments prim_abstract_eval {S} _ _.

(** Python's positional call of a one- or two-argument rule: another
    number of arguments raises [TypeError]. *)
Definition arity_error : exn := TypeError "wrong number of positional arguments".

Definition impl1 {S} (f : pyobj -> PyM S pyobj) (args : list pyobj) : PyM S pyobj :=
  match args with [x] => f x | _ => st_raise arity_error end.
Definition impl2 {S} (f : pyobj -> pyobj -> PyM S pyobj) (args : list pyobj) : PyM S pyobj :=
  match args with [x; y] => f x y | _ => st_raise arity_error end.
Definition aeval1 (f : aval -> result exn aval) (avs : list aval) : result exn aval :=
  match avs with [a] => f a | _ => Err arity_error end.
Definition aeval2 (f : aval -> aval -> result exn aval) (avs : list aval) : result exn aval :=
  match avs with [a; b] => f a b | _ => Err arity_error end.

(** The trace operations [Primitive.bind] uses. *)
Class TraceSem (S : Type) := {
  process_primitive : trace -> Primitive S -> list pyobj -> PyM S pyobj;
  full_raise : trace -> pyobj -> pyobj;
  full_lower : pyobj -> pyobj;
  full_raise_own : forall t x, trace_of x = Some t -> full_raise t x = x
}.

Section Bind.
Context {S : Type} `{TraceSem S}.

(** [Primitive.bind]: the impl when no argument is traced; otherwise the
    top trace processes the raised arguments and the result is lowered. *)
Definition default_bind (p : Primitive S) (args : list pyobj) : PyM S pyobj :=
  match find_top_trace args with
  | None => prim_impl p args
  | Some t =>
      let* out := process_primitive t p (map (full_raise t) args) in
      st_ret (full_lower out)
  end.

Record BoundPrimitive := MkBound {
  bp_prim : Primitive S;
  bp_bind : list pyobj -> PyM S pyobj
}.

(** [Primitive(name)] followed by [def_impl] and [def_abstract_eval]. *)
Definition mk_primitive (p : Primitive S) : BoundPrimitive :=
  MkBound p (default_bind p).

(** [p.def_custom_bind(f)]: [p.bind] becomes [f]. *)
Definition def_custom_bind (bp : BoundPrimitive) (f : list pyobj -> PyM S pyobj)
  : BoundPrimitive :=
  MkBound (bp_prim bp) f.

Definition bind (bp : BoundPrimitive) (args : list pyobj) : PyM S pyobj :=
  bp_bind bp args.
End Bind.

(** ** The staging trace: an equation log in the state *)

Record eqn := MkEqn {
  eqn_level : nat;
  eqn_prim : string;
  eqn_invars : list pyobj;
  eqn_outvar : pyobj
}.

Record TraceState := MkTraceState {
  ts_next_id : nat;
  ts_eqns : list eqn
}.

Definition empty_trace_state : TraceState := MkTraceState 0 [].

Class HasTraceState (S : Type) := {
  get_ts : S -> TraceState;
  set_ts : TraceState -> S -> S;
  get_set_ts : forall ts s, get_ts (set_ts ts s) = ts
}.

Section Staging.
Context {St : Type} `{HasTraceState St}.

(** [JaxprTrace.default_process_primitive]: evaluate the abstract rule on
    the arguments' avals, allocate an output tracer, record the equation. *)
Definition stage_eqn (t : trace) (p : Primitive St) (args : list pyobj) : PyM St pyobj :=
  let* avs := st_lift (res_mapM get_aval args) in
  let* out_av := st_lift (prim_abstract_eval p avs) in
  let* s := st_get in
  let ts := get_ts s in
  let out := PyTracer (trace_level t) (ts_next_id ts) out_av in
  let e := MkEqn (trace_level t) (prim_name p) args out in
  let* _ := st_put (set_ts (MkTraceState (S (ts_next_id ts)) (ts_eqns ts ++ [e])) s) in
  st_ret out.

End Staging.

#[export] Instance staging_sem {St : Type} `{HasTraceState St} : TraceSem St := {|
  process_primitive := stage_eqn;
  full_raise := fun _ x => x;
  full_lower := fun x => x;
  full_raise_own := fun _ _ _ => eq_refl
|}.

(** ** [find_top_trace] *)

Lemma max_trace_None acc o : max_trace acc o = None <-> acc = None /\ o = None.
Proof.
  split; [|by intros [-> ->]].
  destruct acc as [t1|], o as [t2|]; cbn; [case_match|..]; intros Hm;
    try discriminate; auto.
Qed.

Lemma find_top_trace_single x : find_top_trace [x] = trace_of x.
Proof. reflexivity. Qed.

Lemma fold_top_None xs acc :
  fold_left (fun acc x => max_trace acc (trace_of x)) xs acc = None <->
  acc = None /\ Forall (fun x => trace_of x = None) xs.
Proof.
  revert acc; induction xs as [|x xs IH]; intros acc; cbn.
  - split; [intros ->; auto | tauto].
  - rewrite IH, max_trace_None, Forall_cons. tauto.
Qed.

(** No trace is active exactly when no argument is a tracer. *)
Lemma find_top_trace_None xs :
  find_top_trace xs = None <-> Forall (fun x => trace_of x = None) xs.
Proof. unfold find_top_trace. rewrite fold_top_None. tauto. Qed.

(** ** [Primitive.bind] *)

Lemma default_bind_untraced {S} `{TraceSem S} (p : Primitive S) args :
  find_top_trace args = None -> default_bind p args = prim_impl p args.
Proof. intros Hn. unfold default_bind. by rewrite Hn. Qed.

(** ** The staging trace *)

Section StagingFacts.
Context {St : Type} `{HasTraceState St}.

Definition record_eqn (t : trace) (p : Primitive St) (args : list pyobj)
  (av : aval) (s : St) : St :=
  let ts := get_ts s in
  set_ts (MkTraceState (S (ts_next_id ts))
           (ts_eqns ts ++ [MkEqn (trace_level t) (prim_name p) args
                            (PyTracer (trace_level t) (ts_next_id ts) av)])) s.

Lemma stage_eqn_ok t p args avs av s :
  res_mapM get_aval args = Ok avs -> prim_abstract_eval p avs = Ok av ->
  stage_eqn t p args s =
    (Ok (PyTracer (trace_level t) (ts_next_id (get_ts s)) av), record_eqn t p args av s).
Proof. intros Ha Hp. unfold stage_eqn. py_run. by rewrite Ha, Hp. Qed.

(** What [bind] does in a staged trace: one equation, a fresh tracer. *)
Lemma staged_bind_ok t p args avs av s :
  res_mapM get_aval args = Ok avs -> prim_abstract_eval p avs = Ok av ->
  (let* out := process_primitive (TraceSem := staging_sem) t p
                 (map (full_raise (TraceSem := staging_sem) t) args) in
   st_ret (full_lower (TraceSem := staging_sem) out)) s =
  (Ok (PyTracer (trace_level t) (ts_next_id (get_ts s)) av), record_eqn t p args av s).
Proof.
  intros Ha Hp. cbn [process_primitive full_raise full_lower staging_sem].
  rewrite map_id. by erewrite (st_bind_ok _ _ _ _ _ (stage_eqn_ok t p args avs av s Ha Hp)).
Qed.

(** An abstract rule that rejects the avals aborts before recording. *)
Lemma staged_bind_eval_err t p args avs e s :
  res_mapM get_aval args = Ok avs -> prim_abstract_eval p avs = Err e ->
  (let* out := process_primitive (TraceSem := staging_sem) t p
                 (map (full_raise (TraceSem := staging_sem) t) args) in
   st_ret (full_lower (TraceSem := staging_sem) out)) s = (Err e, s).
Proof.
  intros Ha Hp. cbn [process_primitive full_raise full_lower staging_sem].
  rewrite map_id. unfold stage_eqn. py_run. by rewrite Ha, Hp.
Qed.

(** The only state changes a staged [bind] can make: none, or one
    recorded equation. *)
Lemma lowered_stage_outcome t p args s :
  let r := (let* out := stage_eqn t p args in st_ret (full_lower (TraceSem := staging_sem) out)) s in
  snd r = s \/ exists av, snd r = record_eqn t p args av s.
Proof.
  cbn zeta. unfold stage_eqn. py_run.
  destruct (res_mapM get_aval args); cbn; [|auto].
  destruct (prim_abstract_eval p a); cbn; eauto.
Qed.

Lemma default_bind_outcome p args s :
  pure_in (prim_impl p args) ->
  snd (@default_bind St staging_sem p args s) = s \/
  exists t av, snd (@default_bind St staging_sem p args s) = record_eqn t p args av s.
Proof.
  intros Hp. unfold default_bind. destruct (find_top_trace args) as [t|].
  - cbn [process_primitive full_raise staging_sem]. rewrite map_id.
    destruct (lowered_stage_outcome t p args s) as [Ho|[av Ho]]; eauto.
  - left. apply Hp.
Qed.
End StagingFacts.
