(* ===== verification/AdState.v ===== *)
(** * AdState: the module-level state of [ad_util.py]

    [ad_util.py] keeps three dicts as globals: [jaxval_adders] (lines 27-28),
    [jaxval_zeros_likers] (line 46) and [aval_zeros_likers] (lines 51-52).
    The interpreter keeps the trace state. [AdState] collects all four.
    [ad_init] is the state after the module is imported. It has the [Unit]
    adder and the [AbstractUnit] zero constructor, and no [jaxval_zeros_likers]
    entry.

    A registered function is modelled as a pure fallible Rocq function.
    The state cannot hold functions over itself, which would not be strictly
    positive, so a registered adder cannot touch the trace state. The
    extension modules register with [d[T] = f]; here that is
    [register_jaxval_adder] and its two siblings. *)

From stdpp Require Import base list gmap.
From S2P Require Import Prelude Core Registry Trace.

(** [Array = Any] (line 23): any Python object. Lines 46 and 51 annotate
    the two zero-constructor dicts as [Dict[type, Array]], although their
    values are functions; with [Any] the annotation constrains nothing. *)
Definition Array : Type := pyobj.

Definition adder := pyobj -> pyobj -> result exn pyobj.
Definition zeros_liker := pyobj -> result exn Array.
Definition aval_zeros_liker := aval -> result exn Array.

Record AdState := MkAdState {
  jaxval_adders : gmap pytype adder;
  jaxval_zeros_likers : gmap pytype zeros_liker;
  aval_zeros_likers : gmap pytype aval_zeros_liker;
  trace_state : TraceState
}.

#[export] Instance AdState_trace_state : HasTraceState AdState := {|
  get_ts := trace_state;
  set_ts ts s := MkAdState (jaxval_adders s) (jaxval_zeros_likers s) (aval_zeros_likers s) ts;
  get_set_ts _ _ := eq_refl
|}.

(** [lambda _, __: unit] (line 28). *)
Definition unit_adder : adder := fun _ _ => Ok core_unit.

(** [lambda _: unit] (line 52). *)
Definition abstract_unit_zeros_liker : aval_zeros_liker := fun _ => Ok core_unit.

Definition jaxval_adders_init : gmap pytype adder := register TyUnit unit_adder ∅.
Definition jaxval_zeros_likers_init : gmap pytype zeros_liker := ∅.
Definition aval_zeros_likers_init : gmap pytype aval_zeros_liker :=
  register TyAbstractUnit abstract_unit_zeros_liker ∅.

Definition ad_init : AdState :=
  MkAdState jaxval_adders_init jaxval_zeros_likers_init aval_zeros_likers_init
    empty_trace_state.

(** [ad_util.jaxval_adders[T] = f] and its siblings. *)
Definition register_jaxval_adder (T : pytype) (f : adder) (s : AdState) : AdState :=
  MkAdState (register T f (jaxval_adders s)) (jaxval_zeros_likers s)
    (aval_zeros_likers s) (trace_state s).
Definition register_jaxval_zeros_liker (T : pytype) (f : zeros_liker) (s : AdState) : AdState :=
  MkAdState (jaxval_adders s) (register T f (jaxval_zeros_likers s))
    (aval_zeros_likers s) (trace_state s).
Definition register_aval_zeros_liker (T : pytype) (f : aval_zeros_liker) (s : AdState) : AdState :=
  MkAdState (jaxval_adders s) (jaxval_zeros_likers s)
    (register T f (aval_zeros_likers s)) (trace_state s).
