(* ===== verification/AddJaxvals.v ===== *)
(** * AddJaxvals: the [add_any] primitive (lines 27-44)

    - [add_impl] is [jaxval_adders[type(xs)](xs, ys)]. The dispatch uses the
      type of the first operand only.
    - [add_abstract] is [lattice_join].
    - [add_jaxvals_prim] is [Primitive('add_any')] with that impl and
      abstract rule. [add_jaxvals_p] is the same primitive with its default
      [bind].
    - [add_jaxvals x y] computes both avals, left first. When both are
      [abstract_unit] it returns [unit]. Otherwise it binds [add_jaxvals_p].

    The theorems in section [AddSpec] hold for every trace semantics
    ([TraceSem]). They include the mismatch between the import-time [Unit]
    adder and the abstract rule on a [unit] operand paired with another
    value ([add_unit_mixed_operands]). The ones about the equation log use
    the staging instance. *)

From stdpp Require Import base list gmap strings.
From S2P Require Import Prelude Core Registry Trace AdState.

Section AddJaxvals.
Context `{TS : TraceSem AdState}.

(** [add_impl(xs, ys)]: lines 38-40. *)
Definition add_impl (xs ys : pyobj) : PyM AdState pyobj :=
  let* s := st_get in
  let* f := st_lift (lookup_fn (jaxval_adders s) (type_of xs)) in
  st_lift (f xs ys).

(** [add_abstract(xs, ys)]: lines 42-44. *)
Definition add_abstract (xs ys : aval) : result exn aval := lattice_join xs ys.

(** [add_jaxvals_p = Primitive('add_any')] with its decorators: lines 36-44. *)
Definition add_jaxvals_prim : Primitive AdState :=
  MkPrimitive "add_any" (impl2 add_impl) (aeval2 add_abstract).

Definition add_jaxvals_p : BoundPrimitive := mk_primitive add_jaxvals_prim.

(** The guard of line 31, the chained identity
    [get_aval(x) is get_aval(y) is abstract_unit]: that is
    [ax is ay and ay is abstract_unit], and [abstract_unit] is a
    singleton. *)
Definition avals_are_unit (ax ay : aval) : bool :=
  bool_decide (ax = ay) && bool_decide (ay = abstract_unit).

(** [add_jaxvals(x, y)]: lines 30-34. *)
Definition add_jaxvals (x y : pyobj) : PyM AdState pyobj :=
  let* ax := st_lift (get_aval x) in
  let* ay := st_lift (get_aval y) in
  if avals_are_unit ax ay
  then st_ret core_unit
  else bind add_jaxvals_p [x; y].
End AddJaxvals.

(** ** Shared facts *)

Lemma unit_test_true ax ay :
  avals_are_unit ax ay = true <-> ax = AbstractUnit /\ ay = AbstractUnit.
Proof.
  unfold avals_are_unit. rewrite andb_true_iff, !bool_decide_eq_true. unfold abstract_unit.
  split; [intros [-> ->]|intros [-> ->]]; auto.
Qed.

Lemma unit_test_false ax ay :
  ~ (ax = AbstractUnit /\ ay = AbstractUnit) -> avals_are_unit ax ay = false.
Proof.
  intros Hn. destruct (avals_are_unit ax ay) eqn:E; [|done].
  by apply unit_test_true in E.
Qed.

Lemma add_impl_run s xs ys :
  add_impl xs ys s = (let? f := lookup_fn (jaxval_adders s) (type_of xs) in f xs ys, s).
Proof.
  unfold add_impl. py_run.
  by destruct (lookup_fn (jaxval_adders s) (type_of xs)).
Qed.

Section AddSpec.
Context `{TS : TraceSem AdState}.

(** C2: adding two values whose avals are both [abstract_unit] returns
    [unit] and leaves the state unchanged. This holds in every state,
    whatever the registry holds and whether or not the values are
    traced: the primitive is never bound. *)
Theorem add_jaxvals_units x y s :
  get_aval x = Ok AbstractUnit -> get_aval y = Ok AbstractUnit ->
  add_jaxvals x y s = (Ok core_unit, s).
Proof. intros Hx Hy. unfold add_jaxvals. py_run. by rewrite Hx, Hy. Qed.

Lemma add_jaxvals_untraced_run x y ax ay s :
  trace_of x = None -> trace_of y = None ->
  get_aval x = Ok ax -> get_aval y = Ok ay ->
  ~ (ax = AbstractUnit /\ ay = AbstractUnit) ->
  add_jaxvals x y s =
    (let? f := lookup_fn (jaxval_adders s) (type_of x) in f x y, s).
Proof.
  intros Tx Ty Hx Hy Hn. unfold add_jaxvals. py_run. rewrite Hx, Hy. cbn.
  rewrite (unit_test_false _ _ Hn). unfold bind; cbn.
  rewrite default_bind_untraced; [|by apply find_top_trace_None; repeat constructor].
  apply add_impl_run.
Qed.

(** C1: with no tracer among the operands and avals not both
    [abstract_unit], [add_jaxvals x y] looks up the adder registered for
    [type(x)] and applies it to [(x, y)]. A missing key raises
    [KeyError(type(x))]. The state is unchanged on every branch. *)
Theorem add_jaxvals_untraced x y ax ay s :
  trace_of x = None -> trace_of y = None ->
  get_aval x = Ok ax -> get_aval y = Ok ay ->
  ~ (ax = AbstractUnit /\ ay = AbstractUnit) ->
  add_jaxvals x y s =
    (let? f := lookup_fn (jaxval_adders s) (type_of x) in f x y, s).
Proof. apply add_jaxvals_untraced_run. Qed.

Lemma add_jaxvals_traced x y ax ay t s :
  find_top_trace [x; y] = Some t ->
  get_aval x = Ok ax -> get_aval y = Ok ay ->
  ~ (ax = AbstractUnit /\ ay = AbstractUnit) ->
  add_jaxvals x y s =
    (let* out := process_primitive t add_jaxvals_prim (map (full_raise t) [x; y]) in
     st_ret (full_lower out)) s.
Proof.
  intros Ht Hx Hy Hn. unfold add_jaxvals at 1. py_run. rewrite Hx, Hy. cbn.
  rewrite (unit_test_false _ _ Hn). unfold bind, default_bind; cbn.
  by rewrite Ht.
Qed.

(** The error [get_aval] raises on the symbolic zero. *)
Definition zero_aval_error : exn :=
  TypeError "<class 'jax.ad_util.Zero'> is not a valid Jax type".

(** C13: [add_jaxvals] has no case for the symbolic zero.
    [get_aval(zero)] raises [TypeError] before any dispatch, so
    [add_jaxvals(zero, y)] raises for every [y], and so does
    [add_jaxvals(x, zero)] for every [x] with an aval. This holds in every
    state, including one with an adder registered for [Zero]. The spec
    (section 2) instead describes a Zero adder that returns the other
    operand. *)
Theorem add_jaxvals_zero_raises :
  (forall y s, add_jaxvals PyZero y s = (Err zero_aval_error, s)) /\
  (forall x ax s, get_aval x = Ok ax -> add_jaxvals x PyZero s = (Err zero_aval_error, s)).
Proof.
  split.
  - intros y s. reflexivity.
  - intros x ax s Hx. unfold add_jaxvals. py_run. by rewrite Hx.
Qed.
(** C19: the [Unit] adder installed at import (line 28) ignores its second
    operand. Adding [unit] to an untraced value whose aval is not
    [abstract_unit] returns [unit], while the abstract rule rejects the
    same pair of avals. So eager evaluation succeeds where a staged trace
    raises. *)
Theorem add_unit_mixed_operands y ay :
  trace_of y = None -> get_aval y = Ok ay -> ay <> AbstractUnit ->
  add_jaxvals PyUnit y ad_init = (Ok core_unit, ad_init) /\
  add_abstract AbstractUnit ay = Err join_error.
Proof.
  intros Ty Hy Hn. split.
  - rewrite (add_jaxvals_untraced_run PyUnit y AbstractUnit ay)
      by first [done | intros [_ ?]; done].
    reflexivity.
  - by destruct ay.
Qed.
End AddSpec.

(** ** Under the staging trace *)

(** C11: inside a trace, adding two values binds [add_any]. Their avals must
    not both be [abstract_unit], and their avals must join. The staging
    trace then appends exactly one [add_any] equation on [[x; y]]. The
    output tracer is fresh, and its aval is [lattice_join] of the operands'
    avals: the abstract rule [add_abstract] types the result. *)
Theorem add_jaxvals_staged x y ax ay av t s :
  find_top_trace [x; y] = Some t ->
  get_aval x = Ok ax -> get_aval y = Ok ay ->
  ~ (ax = AbstractUnit /\ ay = AbstractUnit) ->
  lattice_join ax ay = Ok av ->
  add_jaxvals x y s =
    (Ok (PyTracer (trace_level t) (ts_next_id (trace_state s)) av),
     record_eqn t add_jaxvals_prim [x; y] av s).
Proof.
  intros Ht Hx Hy Hn Hj.
  rewrite (add_jaxvals_traced x y ax ay t) by done.
  refine (staged_bind_ok t add_jaxvals_prim [x; y] [ax; ay] av s _ _); [|done].
  cbn. by rewrite Hx, Hy.
Qed.

(** C12: inside a trace, adding values whose avals do not join raises the
    join's [TypeError]. The error comes before any equation is recorded, so
    the state is unchanged. *)
Theorem add_jaxvals_staged_join_error x y ax ay e t s :
  find_top_trace [x; y] = Some t ->
  get_aval x = Ok ax -> get_aval y = Ok ay ->
  ~ (ax = AbstractUnit /\ ay = AbstractUnit) ->
  lattice_join ax ay = Err e ->
  add_jaxvals x y s = (Err e, s).
Proof.
  intros Ht Hx Hy Hn Hj.
  rewrite (add_jaxvals_traced x y ax ay t) by done.
  apply (staged_bind_eval_err t add_jaxvals_prim [x; y] [ax; ay] e s); [|done].
  cbn. by rewrite Hx, Hy.
Qed.

(** ** Witnesses: the spec's [IntBox] scenario and a staged trace *)

Definition IntBox (v : Z) : pyobj := PyBox "IntBox" v.

(** [lambda a, b: IntBox(a.v + b.v)]; a non-[IntBox] operand has no [.v]. *)
Definition intbox_adder : adder := fun a b =>
  match a, b with
  | PyBox _ u, PyBox _ v => Ok (IntBox (u + v))
  | _, _ => Err (TypeError "AttributeError: no attribute 'v'")
  end.

Definition intbox_state : AdState :=
  register_jaxval_adder (TyBox "IntBox") intbox_adder ad_init.

Lemma add_jaxvals_units_witness :
  add_jaxvals PyUnit (PyTracer 1 0 AbstractUnit) ad_init = (Ok core_unit, ad_init).
Proof. apply add_jaxvals_units; reflexivity. Defined.

Lemma add_jaxvals_untraced_witness :
  add_jaxvals (IntBox 3) (IntBox 4) intbox_state = (Ok (IntBox 7), intbox_state).
Proof.
  refine (eq_trans (add_jaxvals_untraced (IntBox 3) (IntBox 4)
                      (AbstractBox "IntBox") (AbstractBox "IntBox") _ _ _ _ _ _) _);
    try reflexivity.
  intros [H _]; discriminate.
Defined.

Lemma add_jaxvals_zero_raises_witness :
  add_jaxvals PyUnit PyZero ad_init = (Err zero_aval_error, ad_init).
Proof. apply (proj2 add_jaxvals_zero_raises PyUnit AbstractUnit). reflexivity. Defined.

Definition traced_x : pyobj := PyTracer 1 0 (ShapedArray float32 [2]).

Lemma add_jaxvals_staged_witness :
  add_jaxvals traced_x (PyArray float32 [2] [1; 2]%Z) ad_init =
    (Ok (PyTracer 1 0 (ShapedArray float32 [2])),
     record_eqn (MkTrace 1) add_jaxvals_prim [traced_x; PyArray float32 [2] [1; 2]%Z]
       (ShapedArray float32 [2]) ad_init).
Proof.
  refine (add_jaxvals_staged _ _ (ShapedArray float32 [2]) (ShapedArray float32 [2])
            _ (MkTrace 1) ad_init _ _ _ _ _); try reflexivity.
  intros [H _]; discriminate.
Defined.

Lemma add_jaxvals_staged_join_error_witness :
  add_jaxvals traced_x (PyArray int32 [2] [1; 2]%Z) ad_init = (Err join_error, ad_init).
Proof.
  refine (add_jaxvals_staged_join_error _ _ (ShapedArray float32 [2]) (ShapedArray int32 [2])
            _ (MkTrace 1) ad_init _ _ _ _ _); try reflexivity.
  intros [H _]; discriminate.
Defined.

Lemma add_unit_mixed_operands_witness :
  add_jaxvals PyUnit (PyArray float32 [3] [1; 2; 3]%Z) ad_init = (Ok core_unit, ad_init) /\
  add_abstract AbstractUnit (ShapedArray float32 [3]) = Err join_error.
Proof. apply add_unit_mixed_operands; [reflexivity | reflexivity | discriminate]. Defined.
