(* ===== verification/ZerosLike.v ===== *)
(** * ZerosLike: the additive-identity operation (lines 46-63)

    The module has two entry points, and each reads its own registry.

    - [zeros_like_aval aval] (lines 48-49) is a plain eager call. It runs
      [aval_zeros_likers[type(aval)](aval)] and never binds a primitive, so
      no trace sees it.
    - [zeros_like_jaxval val] (lines 54-55) binds [zeros_like_p]. Its impl
      [zeros_like_impl] (lines 59-61) runs
      [jaxval_zeros_likers[type(example)](example)]. Its abstract rule
      (line 63) is the identity.

    At import, [aval_zeros_likers] has the [AbstractUnit] entry, but
    [jaxval_zeros_likers] is empty. So every untraced [zeros_like_jaxval]
    call in the initial state raises [KeyError], [unit] included; see
    [zeros_like_jaxval_init_raises]. *)

From stdpp Require Import base list gmap strings.
From S2P Require Import Prelude Core Registry Trace AdState.

Section ZerosLike.
Context `{TS : TraceSem AdState}.

(** [zeros_like_aval(aval)]: lines 48-49. *)
Definition zeros_like_aval (av : aval) : PyM AdState pyobj :=
  let* s := st_get in
  let* f := st_lift (lookup_fn (aval_zeros_likers s) (aval_type av)) in
  st_lift (f av).

(** [zeros_like_impl(example)]: lines 59-61. *)
Definition zeros_like_impl (example : pyobj) : PyM AdState pyobj :=
  let* s := st_get in
  let* f := st_lift (lookup_fn (jaxval_zeros_likers s) (type_of example)) in
  st_lift (f example).

(** [zeros_like_p.def_abstract_eval(lambda x: x)]: line 63. *)
Definition zeros_like_abstract (x : aval) : result exn aval := Ok x.

(** [zeros_like_p = Primitive('zeros_like')]: lines 57-63. *)
Definition zeros_like_prim : Primitive AdState :=
  MkPrimitive "zeros_like" (impl1 zeros_like_impl) (aeval1 zeros_like_abstract).

Definition zeros_like_p : BoundPrimitive := mk_primitive zeros_like_prim.

(** [zeros_like_jaxval(val)]: lines 54-55. *)
Definition zeros_like_jaxval (val : pyobj) : PyM AdState pyobj :=
  bind zeros_like_p [val].
End ZerosLike.

Lemma dispatch_run {F} (d : AdState -> gmap pytype F) (k : pytype)
    (call : F -> result exn pyobj) s :
  (let* s0 := st_get in let* f := st_lift (lookup_fn (d s0) k) in st_lift (call f)) s =
  (let? f := lookup_fn (d s) k in call f, s).
Proof. py_run. by destruct (lookup_fn (d s) k). Qed.

Section ZerosSpec.
Context `{TS : TraceSem AdState}.

(** C7: [zeros_like_aval] is an eager call in every state, traced or
    not. It returns what the constructor registered for [type(aval)]
    produces, raises [KeyError(type(aval))] when there is none, and leaves
    the state (and so the trace) unchanged. *)
Theorem zeros_like_aval_spec av s :
  zeros_like_aval av s = (let? f := lookup_fn (aval_zeros_likers s) (aval_type av) in f av, s).
Proof. apply dispatch_run. Qed.

(** C10: while the [AbstractUnit] entry installed at import (line 52) is in
    place, [zeros_like_aval(abstract_unit)] returns [unit]. *)
Theorem zeros_like_aval_abstract_unit s :
  aval_zeros_likers s !! TyAbstractUnit = Some abstract_unit_zeros_liker ->
  zeros_like_aval abstract_unit s = (Ok core_unit, s).
Proof.
  intros Hk. unfold zeros_like_aval. rewrite dispatch_run. cbn.
  by rewrite (proj2 (lookup_fn_ok _ _ _) Hk).
Qed.

Lemma zeros_like_jaxval_untraced_run val s :
  trace_of val = None ->
  zeros_like_jaxval val s =
    (let? f := lookup_fn (jaxval_zeros_likers s) (type_of val) in f val, s).
Proof.
  intros Hv. unfold zeros_like_jaxval, bind; cbn.
  rewrite default_bind_untraced by (apply find_top_trace_None; by constructor).
  apply dispatch_run.
Qed.

(** C8: outside any trace, [zeros_like_jaxval val] dispatches on
    [type(val)] in [jaxval_zeros_likers], raising [KeyError] for a missing
    type. The state is unchanged. *)
Theorem zeros_like_jaxval_untraced val s :
  trace_of val = None ->
  zeros_like_jaxval val s =
    (let? f := lookup_fn (jaxval_zeros_likers s) (type_of val) in f val, s).
Proof. apply zeros_like_jaxval_untraced_run. Qed.

(** C9: right after import, [jaxval_zeros_likers] is empty, so every
    untraced [zeros_like_jaxval] raises [KeyError(type(val))]. This
    includes [unit], although [jaxval_adders] and [aval_zeros_likers] both
    have a unit entry. *)
Theorem zeros_like_jaxval_init_raises val :
  trace_of val = None ->
  zeros_like_jaxval val ad_init = (Err (KeyError (type_of val)), ad_init).
Proof. intros Hv. by rewrite zeros_like_jaxval_untraced_run. Qed.
End ZerosSpec.

(** C14: inside a staged trace, [zeros_like_jaxval val] records one
    [zeros_like] equation on [[val]]. It returns a fresh tracer with
    [val]'s own aval, because the abstract rule is the identity. *)
Theorem zeros_like_jaxval_staged val av t s :
  find_top_trace [val] = Some t -> get_aval val = Ok av ->
  zeros_like_jaxval val s =
    (Ok (PyTracer (trace_level t) (ts_next_id (trace_state s)) av),
     record_eqn t zeros_like_prim [val] av s).
Proof.
  intros Ht Hv. unfold zeros_like_jaxval, bind; cbn [bp_bind zeros_like_p mk_primitive].
  unfold default_bind.
  rewrite Ht.
  refine (staged_bind_ok t zeros_like_prim [val] [av] av s _ _); [|done].
  cbn. by rewrite Hv.
Qed.

(** ** Witnesses *)

(** The spec's scenario: [identity_for(descriptor_of(IntBox(5)))] with the
    constructor [lambda d: IntBox(0)]. *)
Definition intbox_zero_state : AdState :=
  register_aval_zeros_liker (TyAbstractBox "IntBox") (fun _ => Ok (PyBox "IntBox" 0)) ad_init.

Lemma zeros_like_aval_spec_witness :
  zeros_like_aval (AbstractBox "IntBox") intbox_zero_state =
    (Ok (PyBox "IntBox" 0), intbox_zero_state).
Proof. rewrite zeros_like_aval_spec. reflexivity. Defined.

Lemma zeros_like_aval_abstract_unit_witness :
  zeros_like_aval abstract_unit ad_init = (Ok core_unit, ad_init).
Proof. apply zeros_like_aval_abstract_unit. reflexivity. Defined.

Lemma zeros_like_jaxval_untraced_witness :
  zeros_like_jaxval (PyBox "IntBox" 5)
    (register_jaxval_zeros_liker (TyBox "IntBox") (fun _ => Ok (PyBox "IntBox" 0)) ad_init) =
  (Ok (PyBox "IntBox" 0),
   register_jaxval_zeros_liker (TyBox "IntBox") (fun _ => Ok (PyBox "IntBox" 0)) ad_init).
Proof. rewrite zeros_like_jaxval_untraced by reflexivity. reflexivity. Defined.

Lemma zeros_like_jaxval_init_raises_witness :
  zeros_like_jaxval PyUnit ad_init = (Err (KeyError TyUnit), ad_init).
Proof. apply (zeros_like_jaxval_init_raises PyUnit). reflexivity. Defined.

Lemma zeros_like_jaxval_staged_witness :
  zeros_like_jaxval (PyTracer 2 5 (UnshapedArray int32)) ad_init =
    (Ok (PyTracer 2 0 (UnshapedArray int32)),
     record_eqn (MkTrace 2) zeros_like_prim [PyTracer 2 5 (UnshapedArray int32)]
       (UnshapedArray int32) ad_init).
Proof.
  refine (zeros_like_jaxval_staged _ (UnshapedArray int32) (MkTrace 2) ad_init _ _);
    reflexivity.
Defined.
