(* ===== verification/StopGradient.v ===== *)
(** * StopGradient: the [stop_gradient] primitive (lines 74-93)

    - [_stop_gradient_impl] (lines 74-78) is the identity on valid JAX
      values. Any other input raises a [TypeError] whose message embeds
      [str(x)].
    - [stop_gradient_prim] (lines 80-82) carries that impl and the identity
      abstract rule.
    - [stop_gradient_bind] (lines 86-93) is the custom bind rule, and
      [stop_gradient_p] is the primitive after [def_custom_bind]. With no
      active trace, the rule returns [x] without calling the impl. Otherwise
      it hands [(x,)] to the top trace's [process_primitive] and lowers the
      result.

    The theorems in section [StopSpec] hold for every [TraceSem]. One of them
    compares the custom rule with the default [Primitive.bind]. The two agree
    on every traced input and on every valid untraced one. They differ only
    on an untraced value that is not a valid JAX type: the custom rule
    returns it, while the default rule would raise the impl's [TypeError]. *)

From stdpp Require Import base list gmap strings.
From S2P Require Import Prelude Core Registry Trace AdState.

Definition stop_gradient_msg : string :=
  "stop_gradient only works on valid JAX arrays, but input argument is: ".

Section StopGradient.
Context `{TS : TraceSem AdState}.

(** [_stop_gradient_impl(x)]: lines 74-78. *)
Definition _stop_gradient_impl (x : pyobj) : result exn pyobj :=
  if valid_jaxtype x then Ok x
  else Err (TypeError (stop_gradient_msg ++ py_str x)%string).

(** [stop_gradient_p.def_abstract_eval(lambda x: x)]: line 82. *)
Definition stop_gradient_abstract (x : aval) : result exn aval := Ok x.

(** [stop_gradient_p = Primitive('stop_gradient')]: lines 80-82. *)
Definition stop_gradient_prim : Primitive AdState :=
  MkPrimitive "stop_gradient" (impl1 (fun x => st_lift (_stop_gradient_impl x)))
    (aeval1 stop_gradient_abstract).

(** [stop_gradient_bind(x)]: lines 86-93. *)
Definition stop_gradient_bind (x : pyobj) : PyM AdState pyobj :=
  match find_top_trace [x] with
  | None => st_ret x
  | Some top_trace =>
      let* out_tracer := process_primitive top_trace stop_gradient_prim [x] in
      st_ret (full_lower out_tracer)
  end.

(** [@stop_gradient_p.def_custom_bind]: line 86. *)
Definition stop_gradient_p : BoundPrimitive :=
  def_custom_bind (mk_primitive stop_gradient_prim) (impl1 stop_gradient_bind).
End StopGradient.

Lemma valid_jaxtype_true x : valid_jaxtype x = true <-> exists av, concrete_aval x = Ok av.
Proof.
  unfold valid_jaxtype, is_ok. destruct (concrete_aval x); split; eauto.
  - discriminate.
  - intros [? ?]; discriminate.
Qed.

Section StopSpec.
Context `{TS : TraceSem AdState}.

Lemma stop_gradient_p_bind x : bind stop_gradient_p [x] = stop_gradient_bind x.
Proof. reflexivity. Qed.

Lemma stop_gradient_untraced_run x s :
  trace_of x = None -> bind stop_gradient_p [x] s = (Ok x, s).
Proof.
  intros Hx. rewrite stop_gradient_p_bind. unfold stop_gradient_bind.
  by rewrite find_top_trace_single, Hx.
Qed.

(** C6: [_stop_gradient_impl] returns its argument exactly on the valid
    JAX values, the ones [concrete_aval] accepts. On any other value it
    raises a [TypeError] whose message ends with [str(x)]. *)
Theorem stop_gradient_impl_spec x :
  (forall y, _stop_gradient_impl x = Ok y <-> (exists av, concrete_aval x = Ok av) /\ y = x) /\
  (valid_jaxtype x = false ->
     _stop_gradient_impl x = Err (TypeError (stop_gradient_msg ++ py_str x)%string)).
Proof.
  unfold _stop_gradient_impl. split.
  - intros y. rewrite <- valid_jaxtype_true.
    destruct (valid_jaxtype x); split; intros H; try discriminate.
    + by injection H as <-.
    + by destruct H as [_ ->].
    + by destruct H as [? _].
  - by intros ->.
Qed.

(** C3: with no active trace, [stop_gradient_p.bind(x)] returns [x] and
    leaves the state unchanged. This holds for every [x], valid or not,
    and every trace semantics. No [process_primitive] runs and no impl is
    called. *)
Theorem stop_gradient_untraced x s :
  trace_of x = None -> bind stop_gradient_p [x] s = (Ok x, s).
Proof. apply stop_gradient_untraced_run. Qed.

Lemma stop_gradient_traced x t s :
  trace_of x = Some t ->
  bind stop_gradient_p [x] s =
    (let* out := process_primitive t stop_gradient_prim [x] in st_ret (full_lower out)) s.
Proof.
  intros Hx. rewrite stop_gradient_p_bind. unfold stop_gradient_bind.
  by rewrite find_top_trace_single, Hx.
Qed.

(** C5: the custom bind rule refines [Primitive.bind]. For every traced
    input and every valid untraced input, [stop_gradient_p.bind(x)] has
    the same result and the same final state as the default bind of the
    same primitive. *)
Theorem stop_gradient_bind_refines_default x s :
  (valid_jaxtype x = true \/ trace_of x <> None) ->
  bind stop_gradient_p [x] s = default_bind stop_gradient_prim [x] s.
Proof.
  intros Hv. unfold default_bind. rewrite find_top_trace_single.
  destruct (trace_of x) as [t|] eqn:Ht.
  - rewrite (stop_gradient_traced x t) by done. cbn.
    by rewrite (full_raise_own t x Ht).
  - destruct Hv as [Hv|Hv]; [|done].
    rewrite stop_gradient_untraced_run by done. cbn.
    unfold _stop_gradient_impl. by rewrite Hv.
Qed.

End StopSpec.

(** C4: inside a staged trace, [stop_gradient_p.bind(x)] appends exactly
    one [stop_gradient] equation with input [[x]] and no keyword
    parameters. It returns the fresh tracer with [x]'s aval, lowered by
    [full_lower]. *)
Theorem stop_gradient_staged x av t s :
  trace_of x = Some t -> get_aval x = Ok av ->
  bind stop_gradient_p [x] s =
    (Ok (PyTracer (trace_level t) (ts_next_id (trace_state s)) av),
     record_eqn t stop_gradient_prim [x] av s).
Proof.
  intros Ht Hx. rewrite (stop_gradient_traced x t) by done.
  refine (staged_bind_ok t stop_gradient_prim [x] [av] av s _ _); [|done].
  cbn. by rewrite Hx.
Qed.

(** ** Witnesses *)

Lemma stop_gradient_impl_spec_witness :
  _stop_gradient_impl (PyStr "abc") =
    Err (TypeError "stop_gradient only works on valid JAX arrays, but input argument is: abc").
Proof. apply (proj2 (stop_gradient_impl_spec (PyStr "abc"))). reflexivity. Defined.

Lemma stop_gradient_untraced_witness :
  bind stop_gradient_p [PyArray float32 [] [3%Z]] ad_init = (Ok (PyArray float32 [] [3%Z]), ad_init).
Proof. apply stop_gradient_untraced. reflexivity. Defined.

Lemma stop_gradient_bind_refines_default_witness :
  bind stop_gradient_p [PyUnit] ad_init = default_bind stop_gradient_prim [PyUnit] ad_init.
Proof. apply stop_gradient_bind_refines_default. left. reflexivity. Defined.

Lemma stop_gradient_staged_witness :
  bind stop_gradient_p [PyTracer 3 7 (ShapedArray float32 [4])] ad_init =
    (Ok (PyTracer 3 0 (ShapedArray float32 [4])),
     record_eqn (MkTrace 3) stop_gradient_prim [PyTracer 3 7 (ShapedArray float32 [4])]
       (ShapedArray float32 [4]) ad_init).
Proof.
  refine (stop_gradient_staged _ (ShapedArray float32 [4]) (MkTrace 3) ad_init _ _);
    reflexivity.
Defined.
