(* ===== verification/Pytree.v ===== *)
(** * Pytree: the tree-decomposition protocol of [jax.tree_util]

    [ad_util.py] registers [Zero] as a pytree node on line 71.
    [jax/tree_util.py] is not under [src/], so this file models from the spec
    (sections 4.4 and 6) the protocol that registration joins. The map marks
    these definitions [spec_modelled].

    - [NodeDef] is a registered node: a [flatten] function that returns the
      children and the auxiliary data, and an [unflatten] function that
      rebuilds the node from those two.
    - A registry is a [gmap pytype NodeDef]. [register_pytree_node] adds an
      entry, and [builtin_nodes] holds the tuple and [None] nodes.
    - [tree_flatten_fuel] is [tree_flatten]. An object whose type is
      registered is flattened into its children, recursively. Any other
      object is a leaf. A treedef node keeps the [NodeDef] it came from, as
      a JAX [PyTreeDef] does.
    - [tree_unflatten] consumes the leaves in order and fails when it gets
      too few or too many.

    A registered [flatten] is an arbitrary function, so the recursion is not
    structural. [tree_flatten_fuel] therefore takes fuel. [tree_flatten]
    supplies [S (pyobj_size x)] fuel. Section [Protocol] proves that this is
    enough for every registry whose nodes have strictly smaller children
    ([flatten_total]). It also proves that such a registry's roundtrip law
    lifts to whole trees ([flatten_roundtrip]), and that leaves always have
    an unregistered type ([flatten_leaves_unregistered]). *)

From stdpp Require Import base list gmap list_numbers.
From S2P Require Import Prelude Core Registry.

Record NodeDef := MkNodeDef {
  nd_flatten : pyobj -> list pyobj * pyobj;
  nd_unflatten : pyobj -> list pyobj -> pyobj
}.

Inductive treedef :=
| TDLeaf
| TDNode (ty : pytype) (nd : NodeDef) (aux : pyobj) (children : list treedef).

(** [register_pytree_node(type, flatten, unflatten)]. *)
Definition register_pytree_node (ty : pytype) (flatten : pyobj -> list pyobj * pyobj)
    (unflatten : pyobj -> list pyobj -> pyobj) (reg : gmap pytype NodeDef)
    : gmap pytype NodeDef :=
  register ty (MkNodeDef flatten unflatten) reg.

Definition tuple_children (x : pyobj) : list pyobj :=
  match x with PyTuple xs => xs | _ => [] end.

(** The built-in nodes: a tuple's children are its items, [None] has none. *)
Definition tuple_node : NodeDef :=
  MkNodeDef (fun x => (tuple_children x, PyNone)) (fun _ xs => PyTuple xs).
Definition none_node : NodeDef := MkNodeDef (fun _ => ([], PyNone)) (fun _ _ => PyNone).

Definition builtin_nodes : gmap pytype NodeDef :=
  register TyTuple tuple_node (register TyNoneType none_node ∅).

Fixpoint tree_flatten_fuel (reg : gmap pytype NodeDef) (fuel : nat) (x : pyobj)
    : option (list pyobj * treedef) :=
  match fuel with
  | 0 => None
  | S f =>
      match reg !! type_of x with
      | None => Some ([x], TDLeaf)
      | Some nd =>
          rs ← mapM (tree_flatten_fuel reg f) (nd_flatten nd x).1;
          Some (concat rs.*1, TDNode (type_of x) nd (nd_flatten nd x).2 rs.*2)
      end
  end.

Fixpoint pyobj_size (x : pyobj) : nat :=
  match x with
  | PyTuple xs => S (sum_list_with pyobj_size xs)
  | _ => 1
  end.

Definition tree_flatten (reg : gmap pytype NodeDef) (x : pyobj) : option (list pyobj * treedef) :=
  tree_flatten_fuel reg (S (pyobj_size x)) x.

Fixpoint tree_unflatten_aux (td : treedef) (leaves : list pyobj)
    : option (pyobj * list pyobj) :=
  match td with
  | TDLeaf =>
      match leaves with
      | [] => None
      | l :: rest => Some (l, rest)
      end
  | TDNode _ nd aux cs =>
      let fix go (cs : list treedef) (ls : list pyobj) : option (list pyobj * list pyobj) :=
        match cs with
        | [] => Some ([], ls)
        | c :: cs' =>
            '(x, r) ← tree_unflatten_aux c ls;
            '(xs, r') ← go cs' r;
            Some (x :: xs, r')
        end in
      '(xs, rest) ← go cs leaves;
      Some (nd_unflatten nd aux xs, rest)
  end.

Definition tree_unflatten (td : treedef) (leaves : list pyobj) : option pyobj :=
  match tree_unflatten_aux td leaves with
  | Some (x, []) => Some x
  | _ => None
  end.

(** ** The protocol's laws *)

(** [tree_unflatten_aux] on a node, with the children's loop named. *)
Fixpoint unflatten_children (cs : list treedef) (ls : list pyobj)
    : option (list pyobj * list pyobj) :=
  match cs with
  | [] => Some ([], ls)
  | c :: cs' =>
      '(x, r) ← tree_unflatten_aux c ls;
      '(xs, r') ← unflatten_children cs' r;
      Some (x :: xs, r')
  end.

Lemma tree_unflatten_aux_node ty nd aux cs ls :
  tree_unflatten_aux (TDNode ty nd aux cs) ls =
  '(xs, rest) ← unflatten_children cs ls; Some (nd_unflatten nd aux xs, rest).
Proof.
  cbn. match goal with |- ?F cs ls ≫= _ = _ =>
    assert (HF : forall cs' l, F cs' l = unflatten_children cs' l) end.
  { induction cs' as [|c cs' IH]; intros l; [done|]. cbn.
    destruct (tree_unflatten_aux c l) as [[x r]|]; cbn; [|done]. by rewrite IH. }
  by rewrite HF.
Qed.

Definition nodes_decreasing (reg : gmap pytype NodeDef) : Prop :=
  forall x nd, reg !! type_of x = Some nd ->
  Forall (fun c => pyobj_size c < pyobj_size x) (nd_flatten nd x).1.

Definition nodes_roundtrip (reg : gmap pytype NodeDef) : Prop :=
  forall x nd, reg !! type_of x = Some nd ->
  nd_unflatten nd (nd_flatten nd x).2 (nd_flatten nd x).1 = x.

Lemma builtin_nodes_lookup x nd :
  builtin_nodes !! type_of x = Some nd ->
  (type_of x = TyTuple /\ nd = tuple_node) \/ (type_of x = TyNoneType /\ nd = none_node).
Proof.
  unfold builtin_nodes, register.
  destruct (decide (type_of x = TyTuple)) as [Ht|Ht];
    [rewrite Ht, lookup_insert_eq; intros [= <-]; auto|rewrite lookup_insert_ne by congruence].
  destruct (decide (type_of x = TyNoneType)) as [Hn|Hn];
    [rewrite Hn, lookup_insert_eq; intros [= <-]; auto|rewrite lookup_insert_ne by congruence].
  by rewrite lookup_empty.
Qed.

Lemma builtin_nodes_decreasing : nodes_decreasing builtin_nodes.
Proof.
  intros x nd Hx. destruct (builtin_nodes_lookup x nd Hx) as [[Ht ->]|[Ht ->]];
    destruct x; try discriminate; cbn; [|constructor].
  apply Forall_forall. intros c Hc.
  pose proof (sum_list_with_in c pyobj_size xs Hc). lia.
Qed.

Lemma builtin_nodes_roundtrip : nodes_roundtrip builtin_nodes.
Proof.
  intros x nd Hx. destruct (builtin_nodes_lookup x nd Hx) as [[Ht ->]|[Ht ->]];
    by destruct x.
Qed.

Section Protocol.
Context (reg : gmap pytype NodeDef).

Lemma flatten_node fuel x nd :
  reg !! type_of x = Some nd ->
  tree_flatten_fuel reg (S fuel) x =
    (rs ← mapM (tree_flatten_fuel reg fuel) (nd_flatten nd x).1;
     Some (concat rs.*1, TDNode (type_of x) nd (nd_flatten nd x).2 rs.*2)).
Proof. intros Hx. cbn. by rewrite Hx. Qed.

Lemma flatten_leaf fuel x :
  reg !! type_of x = None -> tree_flatten_fuel reg (S fuel) x = Some ([x], TDLeaf).
Proof. intros Hx. cbn. by rewrite Hx. Qed.

(** Leaves are exactly the objects of unregistered types. *)
Lemma flatten_leaves_unregistered fuel x ls td :
  tree_flatten_fuel reg fuel x = Some (ls, td) ->
  Forall (fun l => reg !! type_of l = None) ls.
Proof.
  revert x ls td; induction fuel as [|f IH]; intros x ls td H; [discriminate|].
  destruct (reg !! type_of x) as [nd|] eqn:Hx.
  - rewrite (flatten_node f x nd Hx) in H.
    destruct (mapM _ _) as [rs|] eqn:Hm; cbn in H; [|discriminate].
    injection H as <- <-. apply Forall_concat, Forall_fmap.
    apply mapM_Some_1 in Hm. clear Hx.
    induction Hm as [|c [ls' td'] ch rs' Hc _ IHch]; constructor;
      [exact (IH _ _ _ Hc) | exact IHch].
  - rewrite (flatten_leaf f x Hx) in H. injection H as <- <-. by constructor.
Qed.

Section Decreasing.
Hypothesis Hdec : nodes_decreasing reg.

(** Fuel above the size of [x] is enough: [tree_flatten] terminates. *)
Lemma flatten_total fuel x :
  pyobj_size x < fuel -> exists ls td, tree_flatten_fuel reg fuel x = Some (ls, td).
Proof.
  revert x; induction fuel as [|f IH]; intros x Hlt; [lia|].
  destruct (reg !! type_of x) as [nd|] eqn:Hx.
  - rewrite (flatten_node f x nd Hx).
    destruct (mapM_is_Some_2 (tree_flatten_fuel reg f) (nd_flatten nd x).1) as [rs Hrs].
    + eapply Forall_impl; [exact (Hdec x nd Hx)|]. intros c Hc.
      destruct (IH c) as (ls & td & Hf); [cbn in Hc; lia|]. cbn. rewrite Hf. by eexists.
    + rewrite Hrs. cbn. eauto.
  - rewrite (flatten_leaf f x Hx). eauto.
Qed.
End Decreasing.

Section Roundtrip.
Hypothesis Hrt : nodes_roundtrip reg.

Lemma flatten_unflatten_aux fuel x ls td rest :
  tree_flatten_fuel reg fuel x = Some (ls, td) ->
  tree_unflatten_aux td (ls ++ rest) = Some (x, rest).
Proof.
  revert x ls td rest; induction fuel as [|f IH]; intros x ls td rest H; [discriminate|].
  destruct (reg !! type_of x) as [nd|] eqn:Hx.
  - rewrite (flatten_node f x nd Hx) in H.
    destruct (mapM _ _) as [rs|] eqn:Hm; cbn in H; [|discriminate].
    injection H as <- <-. rewrite tree_unflatten_aux_node.
    assert (Hc : unflatten_children rs.*2 (concat rs.*1 ++ rest) =
                 Some ((nd_flatten nd x).1, rest)).
    { apply mapM_Some_1 in Hm. clear Hx. induction Hm as [|c [lc tc] ch rs' Hc _ IHch];
        [done|].
      cbn. rewrite <- app_assoc, (IH _ _ _ _ Hc). cbn. by rewrite IHch. }
    rewrite Hc. cbn. by rewrite Hrt.
  - rewrite (flatten_leaf f x Hx) in H. by injection H as <- <-.
Qed.

(** Unflattening what [tree_flatten] produced rebuilds the object. *)
Lemma flatten_roundtrip fuel x ls td :
  tree_flatten_fuel reg fuel x = Some (ls, td) -> tree_unflatten td ls = Some x.
Proof.
  intros H. unfold tree_unflatten.
  rewrite <- (app_nil_r ls), (flatten_unflatten_aux fuel x ls td [] H). done.
Qed.
End Roundtrip.
End Protocol.
