(* ===== verification/SymbolicZero.v ===== *)
(** * SymbolicZero: [class Zero], [zero] and its pytree node (lines 65-71)

    [Zero] is the [PyZero] constructor of [Core.pyobj], and its [__repr__]
    is [Core.Zero_repr]. This file holds the rest of lines 65-71: the
    singleton [zero] (line 69) and its pytree registration (line 71).
    [Zero_flatten] returns no children and [None] as aux data.
    [Zero_unflatten] ignores both arguments and returns the singleton.

    The theorems show three things:
    - the [Zero] node satisfies the [Pytree] protocol's two laws, so adding
      it keeps a well-formed registry well-formed;
    - with the registry [ad_util] leaves behind, every object flattens and
      unflattens back to itself;
    - [zero] flattens to no leaves and is never itself a leaf, in any
      registry where [Zero] is registered;
    - adding the [Zero] node to a registry whose nodes shrink keeps
      [tree_flatten] total. *)

From stdpp Require Import base list gmap strings.
From S2P Require Import Prelude Core Registry Pytree.

(** [zero = Zero()]: line 69. *)
Definition zero : pyobj := PyZero.

(** [lambda z: ((), None)]: line 71. *)
Definition Zero_flatten (z : pyobj) : list pyobj * pyobj := ([], PyNone).

(** [lambda _, xs: zero]: line 71. *)
Definition Zero_unflatten (aux : pyobj) (xs : list pyobj) : pyobj := zero.

(** [register_pytree_node(Zero, ...)]: line 71. *)
Definition register_Zero (reg : gmap pytype NodeDef) : gmap pytype NodeDef :=
  register_pytree_node TyZero Zero_flatten Zero_unflatten reg.

(** The pytree registry once [ad_util] is imported. *)
Definition ad_util_pytree_registry : gmap pytype NodeDef := register_Zero builtin_nodes.

Definition Zero_node : NodeDef := MkNodeDef Zero_flatten Zero_unflatten.

Lemma type_of_zero x : type_of x = TyZero -> x = zero.
Proof. by destruct x. Qed.

Lemma register_Zero_lookup reg x nd :
  register_Zero reg !! type_of x = Some nd ->
  (x = zero /\ nd = Zero_node) \/ (type_of x <> TyZero /\ reg !! type_of x = Some nd).
Proof.
  unfold register_Zero, register_pytree_node, register.
  destruct (decide (type_of x = TyZero)) as [Hz|Hz].
  - rewrite Hz, lookup_insert_eq. intros [= <-]. left. by rewrite (type_of_zero x Hz).
  - rewrite lookup_insert_ne by congruence. auto.
Qed.

Lemma register_Zero_decreasing reg :
  nodes_decreasing reg -> nodes_decreasing (register_Zero reg).
Proof.
  intros Hdec x nd Hx.
  destruct (register_Zero_lookup reg x nd Hx) as [[-> ->]|[_ Hreg]]; [cbn; done | auto].
Qed.

Lemma register_Zero_roundtrip reg :
  nodes_roundtrip reg -> nodes_roundtrip (register_Zero reg).
Proof.
  intros Hrt x nd Hx.
  destruct (register_Zero_lookup reg x nd Hx) as [[-> ->]|[_ Hreg]]; [cbn; done | auto].
Qed.

Lemma Zero_node_laws reg :
  nodes_decreasing reg -> nodes_roundtrip reg ->
  nodes_decreasing (register_Zero reg) /\ nodes_roundtrip (register_Zero reg).
Proof.
  intros Hdec Hrt. split; [exact (register_Zero_decreasing reg Hdec)|].
  exact (register_Zero_roundtrip reg Hrt).
Qed.

(** C16: the [Zero] node (line 71) satisfies the pytree protocol. Its
    children are smaller than the object (there are none), and unflattening
    its own flattening returns [zero]. So registering it keeps both registry
    laws. *)
Theorem register_Zero_laws reg :
  nodes_decreasing reg -> nodes_roundtrip reg ->
  nodes_decreasing (register_Zero reg) /\ nodes_roundtrip (register_Zero reg).
Proof. apply Zero_node_laws. Qed.

Lemma ad_util_pytree_registry_laws :
  nodes_decreasing ad_util_pytree_registry /\ nodes_roundtrip ad_util_pytree_registry.
Proof. apply Zero_node_laws; [apply builtin_nodes_decreasing | apply builtin_nodes_roundtrip]. Qed.

(** C15: with the registry [ad_util] leaves behind, [tree_flatten]
    terminates on every object with the fuel it is given, and unflattening
    the result rebuilds the object. Tuples, [None] and [zero] are nodes;
    everything else is a leaf. *)
Theorem tree_flatten_roundtrip_ad_util x :
  exists ls td, tree_flatten ad_util_pytree_registry x = Some (ls, td) /\
                tree_unflatten td ls = Some x.
Proof.
  destruct ad_util_pytree_registry_laws as [Hdec Hrt].
  destruct (flatten_total _ Hdec (S (pyobj_size x)) x) as (ls & td & Hf); [lia|].
  exists ls, td. split; [done|]. exact (flatten_roundtrip _ Hrt _ _ _ _ Hf).
Qed.

(** C17: [zero] flattens to no leaves, with [None] as aux data. Unflattening
    that treedef from the empty leaf list returns [zero] again, and any
    non-empty leaf list is rejected. *)
Theorem zero_flatten_unflatten :
  tree_flatten ad_util_pytree_registry zero = Some ([], TDNode TyZero Zero_node PyNone []) /\
  tree_unflatten (TDNode TyZero Zero_node PyNone []) [] = Some zero /\
  (forall l ls, tree_unflatten (TDNode TyZero Zero_node PyNone []) (l :: ls) = None).
Proof. split; [reflexivity|]. split; [reflexivity|]. intros l ls. reflexivity. Qed.

(** C21: registering [Zero] keeps [tree_flatten] total. In any registry
    whose nodes have strictly smaller children, [tree_flatten] over that
    registry with [Zero] added returns a result for every object. The fuel
    [S (pyobj_size x)] that [tree_flatten] supplies is enough. *)
Theorem register_Zero_flatten_total reg x :
  nodes_decreasing reg -> exists ls td, tree_flatten (register_Zero reg) x = Some (ls, td).
Proof.
  intros Hdec. unfold tree_flatten.
  exact (flatten_total _ (register_Zero_decreasing reg Hdec) (S (pyobj_size x)) x
           (Nat.lt_succ_diag_r _)).
Qed.

(** ** Witnesses *)

Example zero_repr : py_repr zero = "Zero"%string /\ py_str zero = "Zero"%string.
Proof. split; reflexivity. Qed.

Lemma register_Zero_laws_witness :
  nodes_decreasing ad_util_pytree_registry /\ nodes_roundtrip ad_util_pytree_registry.
Proof.
  apply register_Zero_laws; [apply builtin_nodes_decreasing | apply builtin_nodes_roundtrip].
Defined.

Lemma register_Zero_flatten_total_witness :
  nodes_decreasing builtin_nodes /\
  exists ls td, tree_flatten (register_Zero builtin_nodes) (PyTuple [zero; PyUnit]) = Some (ls, td).
Proof.
  split; [exact builtin_nodes_decreasing|].
  exact (register_Zero_flatten_total builtin_nodes (PyTuple [zero; PyUnit])
           builtin_nodes_decreasing).
Defined.
