(* ===== verification/Session.v ===== *)
(** * Session: the module as a state machine over its global state

    A program that imports [ad_util] can do two kinds of things. It can
    register new functions ([d[T] = f], spec section 5). It can call the
    three operations and the [stop_gradient] primitive. These actions may
    interleave in any order, inside or outside traces.

    - [op] lists the actions, and [run_op] runs one of them on the state.
    - [step] is the transition relation: one action run from one state.
    - [run_ops] runs a list of actions in order and collects their results.
      Each action's exception is recorded as its result and the sequence
      goes on, as under a [try]/[except] around each call. A raising call
      keeps any state change made before the raise.

    Section [Machine] defines all of these for any trace semantics
    ([TraceSem]). The class [TraceLocal] is the law that the registry
    theorem needs: [process_primitive] writes the trace state and nothing
    else. Section [Local] proves against that law that every call writes at
    most the trace state, so under any such semantics no call changes a
    registry ([calls_keep_registries]). The staging instance meets the law
    ([staging_local]). Under the staging instance the equation log is part
    of the state, and every step only appends to it ([step_log_append]). *)

From stdpp Require Import base list gmap strings.
From S2P Require Import Prelude Core Registry Trace AdState AddJaxvals ZerosLike StopGradient.

Inductive op :=
| RegisterAdder (T : pytype) (f : adder)
| RegisterJaxvalZerosLiker (T : pytype) (f : zeros_liker)
| RegisterAvalZerosLiker (T : pytype) (f : aval_zeros_liker)
| CallAddJaxvals (x y : pyobj)
| CallZerosLikeJaxval (x : pyobj)
| CallZerosLikeAval (av : aval)
| CallStopGradient (x : pyobj).

Section Machine.
Context `{TS : TraceSem AdState}.

(** A dict assignment is a statement: its value is [None]. *)
Definition run_op (o : op) (s : AdState) : result exn pyobj * AdState :=
  match o with
  | RegisterAdder T f => (Ok PyNone, register_jaxval_adder T f s)
  | RegisterJaxvalZerosLiker T f => (Ok PyNone, register_jaxval_zeros_liker T f s)
  | RegisterAvalZerosLiker T f => (Ok PyNone, register_aval_zeros_liker T f s)
  | CallAddJaxvals x y => add_jaxvals x y s
  | CallZerosLikeJaxval x => zeros_like_jaxval x s
  | CallZerosLikeAval av => zeros_like_aval av s
  | CallStopGradient x => bind stop_gradient_p [x] s
  end.

Inductive step : relation AdState :=
| step_op o s : step s (snd (run_op o s)).

Fixpoint run_ops (os : list op) (s : AdState) : list (result exn pyobj) * AdState :=
  match os with
  | [] => ([], s)
  | o :: os' =>
      let '(r, s1) := run_op o s in
      let '(rs, s2) := run_ops os' s1 in
      (r :: rs, s2)
  end.

Definition is_call (o : op) : bool :=
  match o with
  | RegisterAdder _ _ | RegisterJaxvalZerosLiker _ _ | RegisterAvalZerosLiker _ _ => false
  | _ => true
  end.

End Machine.

(** ** The shape of a call *)

Section Shapes.
Context `{TS : TraceSem AdState}.

(** [add_jaxvals x y] raises in [get_aval] or takes the unit short-circuit,
    the same way in every state and leaving it as it is, or binds
    [add_any]. Which case applies depends on [x] and [y] only. *)
Lemma add_jaxvals_cases x y :
  (exists r, forall s, add_jaxvals x y s = (r, s)) \/
  (forall s, add_jaxvals x y s = default_bind add_jaxvals_prim [x; y] s).
Proof.
  unfold add_jaxvals, st_bind, st_lift.
  destruct (get_aval x) as [ax|e]; [|left; by exists (Err e)].
  destruct (get_aval y) as [ay|e]; [|left; by exists (Err e)].
  destruct (avals_are_unit ax ay); [left; by exists (Ok core_unit) | by right].
Qed.
End Shapes.

Lemma add_prim_pure x y : pure_in (prim_impl add_jaxvals_prim [x; y]).
Proof. cbn [prim_impl add_jaxvals_prim impl2]. unfold add_impl. auto with py. Qed.

Lemma zeros_like_prim_pure x : pure_in (prim_impl zeros_like_prim [x]).
Proof. cbn [prim_impl zeros_like_prim impl1]. unfold zeros_like_impl. auto with py. Qed.

#[export] Hint Resolve add_prim_pure zeros_like_prim_pure : py.

(** ** Trace semantics that write only the trace state *)

(** The law the registry theorems need from a trace semantics: its
    [process_primitive] writes the trace state and nothing else. *)
Class TraceLocal (TS : TraceSem AdState) : Prop :=
  trace_local : forall t p args s, exists ts, snd (process_primitive t p args s) = set_ts ts s.

#[export] Instance staging_local : TraceLocal staging_sem.
Proof.
  intros t p args [a z v ts]. cbn [process_primitive staging_sem]. unfold stage_eqn. py_run.
  destruct (res_mapM get_aval args); cbn; [|by eexists].
  destruct (prim_abstract_eval p a0); cbn; by eexists.
Qed.

(** [s'] differs from [s] at most in its trace state. *)
Definition only_trace (s s' : AdState) : Prop := exists ts, s' = set_ts ts s.

Lemma only_trace_refl s : only_trace s s.
Proof. exists (trace_state s). by destruct s. Qed.

Section Local.
Context `{TS : TraceSem AdState} `{!TraceLocal TS}.

Lemma lowered_process_local t p args s :
  only_trace s (snd ((let* out := process_primitive t p args in st_ret (full_lower out)) s)).
Proof.
  unfold st_bind. destruct (trace_local t p args s) as [ts Hts].
  destruct (process_primitive t p args s) as [[v|e] s']; cbn in *; by exists ts.
Qed.

Lemma default_bind_local p args s :
  pure_in (prim_impl p args) -> only_trace s (snd (default_bind p args s)).
Proof.
  intros Hp. unfold default_bind. destruct (find_top_trace args) as [t|].
  - apply lowered_process_local.
  - rewrite (Hp s). apply only_trace_refl.
Qed.

(** Every call of the module writes at most the trace state. *)
Lemma run_op_local o s : is_call o = true -> only_trace s (snd (run_op o s)).
Proof.
  intros Hc. destruct o; cbn [is_call run_op] in *; try discriminate.
  - destruct (add_jaxvals_cases x y) as [[r ->] | ->]; [apply only_trace_refl|].
    apply default_bind_local. auto with py.
  - apply default_bind_local. auto with py.
  - unfold zeros_like_aval. rewrite dispatch_run. apply only_trace_refl.
  - rewrite stop_gradient_p_bind. unfold stop_gradient_bind.
    destruct (find_top_trace [x]) as [t|]; [apply lowered_process_local | apply only_trace_refl].
Qed.

End Local.

(** ** The module's primitives *)

Definition ad_prims : list string := ["add_any"; "zeros_like"; "stop_gradient"].

(** ** What one call can do to the state *)

(** A call leaves the state as it is, or records one equation of one of
    the module's primitives. *)
Definition call_outcome (s s' : AdState) : Prop :=
  s' = s \/ exists t p args av, prim_name p ∈ ad_prims /\ s' = record_eqn t p args av s.

Lemma default_bind_call_outcome (p : Primitive AdState) args s :
  prim_name p ∈ ad_prims -> pure_in (prim_impl p args) ->
  call_outcome s (snd (default_bind p args s)).
Proof.
  intros Hn Hp. destruct (default_bind_outcome p args s Hp) as [H|(t & av & H)];
    [left | right; exists t, p, args, av]; auto.
Qed.

Lemma add_jaxvals_outcome x y s : call_outcome s (snd (add_jaxvals x y s)).
Proof.
  destruct (add_jaxvals_cases x y) as [[r ->] | ->]; [by left|].
  apply default_bind_call_outcome; [by repeat constructor | auto with py].
Qed.

Lemma zeros_like_jaxval_outcome x s : call_outcome s (snd (zeros_like_jaxval x s)).
Proof. apply default_bind_call_outcome; [by repeat constructor | auto with py]. Qed.

Lemma zeros_like_aval_outcome av s : call_outcome s (snd (zeros_like_aval av s)).
Proof. left. unfold zeros_like_aval. by rewrite dispatch_run. Qed.

Lemma stop_gradient_outcome x s : call_outcome s (snd (bind stop_gradient_p [x] s)).
Proof.
  rewrite stop_gradient_p_bind. unfold stop_gradient_bind.
  destruct (find_top_trace [x]) as [t|]; [|by left].
  destruct (lowered_stage_outcome t stop_gradient_prim [x] s) as [H|[av H]];
    [left | right; exists t, stop_gradient_prim, [x], av; split; [by repeat constructor|]];
    exact H.
Qed.

(** Every action is a registration or a call with a [call_outcome]. *)
Lemma run_op_cases o s :
  (exists T f, snd (run_op o s) = register_jaxval_adder T f s) \/
  (exists T f, snd (run_op o s) = register_jaxval_zeros_liker T f s) \/
  (exists T f, snd (run_op o s) = register_aval_zeros_liker T f s) \/
  call_outcome s (snd (run_op o s)).
Proof.
  destruct o; cbn [run_op snd];
    [left; eauto | right; left; eauto | right; right; left; eauto | ..];
    right; right; right.
  - apply add_jaxvals_outcome.
  - apply zeros_like_jaxval_outcome.
  - apply zeros_like_aval_outcome.
  - apply stop_gradient_outcome.
Qed.

Section AnyTrace.
Context `{TS : TraceSem AdState} `{!TraceLocal TS}.

(** C22: under every trace semantics that writes only its own trace state,
    no call of the module changes a registry. [add_jaxvals],
    [zeros_like_jaxval], [zeros_like_aval] and [stop_gradient], traced or
    not, only read [jaxval_adders], [jaxval_zeros_likers] and
    [aval_zeros_likers]. *)
Theorem calls_keep_registries o s :
  is_call o = true ->
  jaxval_adders (snd (run_op o s)) = jaxval_adders s /\
  jaxval_zeros_likers (snd (run_op o s)) = jaxval_zeros_likers s /\
  aval_zeros_likers (snd (run_op o s)) = aval_zeros_likers s.
Proof. intros Hc. destruct (run_op_local o s Hc) as [ts ->]. done. Qed.
End AnyTrace.

(** C18: the equation log is append-only. One action appends at most one
    equation and never rewrites the earlier ones. *)
Theorem step_log_append s s' :
  step s s' ->
  exists l, length l <= 1 /\ ts_eqns (trace_state s') = ts_eqns (trace_state s) ++ l.
Proof.
  intros [o s0].
  destruct (run_op_cases o s0)
    as [(T & f & ->)|[(T & f & ->)|[(T & f & ->)|[->|(t & p & args & av & _ & ->)]]]];
    cbn; first [exists []; rewrite app_nil_r; split; [cbn; lia | done]
               | eexists; split; [|reflexivity]; cbn; lia].
Qed.

(** ** Witnesses *)

Lemma step_log_append_witness :
  exists l, length l <= 1 /\
    ts_eqns (trace_state (snd (run_op (CallStopGradient (PyTracer 1 0 AbstractUnit)) ad_init))) =
    ts_eqns (trace_state ad_init) ++ l.
Proof. apply step_log_append, step_op. Defined.

Lemma calls_keep_registries_witness :
  jaxval_adders (snd (run_op (CallStopGradient (PyTracer 1 0 AbstractUnit)) ad_init)) =
    jaxval_adders ad_init /\
  jaxval_zeros_likers (snd (run_op (CallStopGradient (PyTracer 1 0 AbstractUnit)) ad_init)) =
    jaxval_zeros_likers ad_init /\
  aval_zeros_likers (snd (run_op (CallStopGradient (PyTracer 1 0 AbstractUnit)) ad_init)) =
    aval_zeros_likers ad_init.
Proof. apply calls_keep_registries. reflexivity. Defined.
