(* ===== verification/Ordering.v ===== *)
(** * Ordering: how registrations and calls interleave

    Spec section 5 says the registries are filled at import and later
    extended, and that a type must be registered before it is used. This
    file proves what that means for sequences of [Session.op]s.

    - Section [Frame] shows that the staging trace only reads and writes
      the trace state. A state update that leaves the trace state alone
      commutes with a staged equation.
    - Section [CallFrame] shows that a call commutes with any state update
      that leaves the trace state and the entry the call dispatches on
      alone. So a registration and a call that does not read the entry it
      writes, which [independent] decides, commute: swapping them swaps
      their results and leaves the final state as it was
      ([register_call_commute]). *)

From stdpp Require Import base list gmap strings.
From S2P Require Import Prelude Core Registry Trace AdState AddJaxvals ZerosLike StopGradient Session.

(** The registration [r] and the call [c] are independent: [c] does not
    dispatch on the entry that [r] writes. *)
Definition independent (r c : op) : bool :=
  match r, c with
  | RegisterAdder T _, CallAddJaxvals x _ => bool_decide (type_of x <> T)
  | RegisterJaxvalZerosLiker T _, CallZerosLikeJaxval x => bool_decide (type_of x <> T)
  | RegisterAvalZerosLiker T _, CallZerosLikeAval a => bool_decide (aval_type a <> T)
  | (RegisterAdder _ _ | RegisterJaxvalZerosLiker _ _ | RegisterAvalZerosLiker _ _), _ =>
      is_call c
  | _, _ => false
  end.

(** [m] commutes with the state update [g]: run after [g] it returns the
    same result, and [g] run after it reaches the same state. *)
Definition commutes (g : AdState -> AdState) {A} (m : PyM AdState A) : Prop :=
  forall s, m (g s) = (fst (m s), g (snd (m s))).

(** [g] leaves alone the registry entry that the call [c] dispatches on. *)
Definition reads_preserved (g : AdState -> AdState) (c : op) : Prop :=
  match c with
  | CallAddJaxvals x _ => forall s, jaxval_adders (g s) !! type_of x = jaxval_adders s !! type_of x
  | CallZerosLikeJaxval x =>
      forall s, jaxval_zeros_likers (g s) !! type_of x = jaxval_zeros_likers s !! type_of x
  | CallZerosLikeAval a =>
      forall s, aval_zeros_likers (g s) !! aval_type a = aval_zeros_likers s !! aval_type a
  | _ => True
  end.

(** ** The staging trace touches only the trace state *)

Section Frame.
Context {St : Type} `{HasTraceState St} (g : St -> St).
Hypothesis g_get : forall s, get_ts (g s) = get_ts s.
Hypothesis g_set : forall ts s, set_ts ts (g s) = g (set_ts ts s).

Lemma stage_eqn_frame t p args s :
  stage_eqn t p args (g s) = (fst (stage_eqn t p args s), g (snd (stage_eqn t p args s))).
Proof.
  unfold stage_eqn. py_run.
  destruct (res_mapM get_aval args) as [avs|]; cbn; [|done].
  destruct (prim_abstract_eval p avs); cbn; [|done].
  by rewrite g_get, g_set.
Qed.

Lemma lowered_stage_frame t p args s :
  (let* out := stage_eqn t p args in st_ret out) (g s) =
  (fst ((let* out := stage_eqn t p args in st_ret out) s),
   g (snd ((let* out := stage_eqn t p args in st_ret out) s))).
Proof.
  unfold st_bind, st_ret. rewrite stage_eqn_frame.
  by destruct (stage_eqn t p args s) as [[v|e] s'].
Qed.
End Frame.

(** ** A registration commutes with a call that does not read its entry *)

Section CallFrame.
Context (g : AdState -> AdState).
Hypothesis g_get : forall s, trace_state (g s) = trace_state s.
Hypothesis g_set : forall ts s, set_ts ts (g s) = g (set_ts ts s).

Lemma dispatch_commutes {F} (d : AdState -> gmap pytype F) k (call : F -> result exn pyobj) :
  (forall s, d (g s) !! k = d s !! k) ->
  commutes g (let* s0 := st_get in let* f := st_lift (lookup_fn (d s0) k) in st_lift (call f)).
Proof. intros Hd s. rewrite !dispatch_run. unfold lookup_fn. by rewrite Hd. Qed.

Lemma default_bind_commutes p args :
  commutes g (prim_impl p args) -> commutes g (default_bind p args).
Proof.
  intros Hp s. unfold default_bind. destruct (find_top_trace args) as [t|]; [|apply Hp].
  cbn [process_primitive full_raise full_lower staging_sem]. rewrite map_id.
  exact (lowered_stage_frame g g_get g_set t p args s).
Qed.

Lemma call_commutes c : is_call c = true -> reads_preserved g c -> commutes g (run_op c).
Proof.
  intros Hc Hd. destruct c; cbn [is_call reads_preserved run_op] in *; try discriminate.
  - destruct (add_jaxvals_cases x y) as [[r Hr] | Hb]; intros s; cbn [run_op]; [by rewrite !Hr|].
    rewrite !Hb. apply default_bind_commutes.
    exact (dispatch_commutes jaxval_adders (type_of x) (fun f => f x y) Hd).
  - apply default_bind_commutes.
    exact (dispatch_commutes jaxval_zeros_likers (type_of x) (fun f => f x) Hd).
  - exact (dispatch_commutes aval_zeros_likers (aval_type av) (fun f => f av) Hd).
  - intros s. cbn [run_op]. rewrite !stop_gradient_p_bind. unfold stop_gradient_bind.
    destruct (find_top_trace [x]) as [t|]; [|done].
    cbn [process_primitive full_lower staging_sem].
    exact (lowered_stage_frame g g_get g_set t stop_gradient_prim [x] s).
Qed.
End CallFrame.

Lemma registration_run r s : is_call r = false -> run_op r s = (Ok PyNone, snd (run_op r s)).
Proof. destruct r; done. Qed.

Lemma independent_registration r c : independent r c = true -> is_call r = false.
Proof. by destruct r, c. Qed.

Lemma independent_call r c : independent r c = true -> is_call c = true.
Proof. destruct r, c; cbn; try done; by intros ?%bool_decide_eq_true_1. Qed.

Lemma independent_reads r c :
  independent r c = true -> reads_preserved (fun s => snd (run_op r s)) c.
Proof.
  intros H. destruct r, c; cbn [independent] in H; try discriminate;
    cbn [reads_preserved run_op snd]; try done;
    apply bool_decide_eq_true_1 in H; intros s; cbn; unfold register;
    by rewrite lookup_insert_ne by congruence.
Qed.

Lemma independent_frame r c s :
  independent r c = true ->
  run_op c (snd (run_op r s)) = (fst (run_op c s), snd (run_op r (snd (run_op c s)))).
Proof.
  intros H. pose proof (independent_registration r c H) as Hr.
  assert (Hg : forall s, trace_state (snd (run_op r s)) = trace_state s) by (by destruct r).
  assert (Hs : forall ts s, set_ts ts (snd (run_op r s)) = snd (run_op r (set_ts ts s)))
    by (by destruct r).
  exact (call_commutes _ Hg Hs c (independent_call r c H) (independent_reads r c H) s).
Qed.

(** C20: a registration and a call that does not dispatch on the entry it
    writes can be run in either order. This covers an adder and an
    [add_jaxvals] call on another type, a zero constructor and a
    [zeros_like] call on another type, any registration and a call that
    reads another registry, and any registration and [stop_gradient].
    Swapping the two actions swaps their results and gives the same final
    state, traced or not. *)
Theorem register_call_commute r c s :
  independent r c = true ->
  run_ops [r; c] s = (let '(rs, s') := run_ops [c; r] s in (rev rs, s')).
Proof.
  intros H. pose proof (independent_registration r c H) as Hr.
  cbn [run_ops]. rewrite (registration_run r s Hr). cbn [run_ops].
  rewrite (independent_frame r c s H).
  destruct (run_op c s) as [rc sc]. cbn [fst snd]. rewrite (registration_run r sc Hr).
  reflexivity.
Qed.

(** ** Witnesses *)

Definition staged_add : op :=
  CallAddJaxvals (PyTracer 1 0 (ShapedArray float32 [3])) (PyArray float32 [3] [1; 2; 3]%Z).

Lemma register_call_commute_witness :
  run_ops [RegisterAdder (TyBox "IntBox") intbox_adder; staged_add] ad_init =
  (let '(rs, s') := run_ops [staged_add; RegisterAdder (TyBox "IntBox") intbox_adder] ad_init
   in (rev rs, s')).
Proof. apply register_call_commute. reflexivity. Defined.

